(** * Hostel leave and gate-pass backend: leave lifecycle, QR credential,
      gate scans and the students-outside view.

    Shallow embedding of
      - backened/src/utils/helpers.js         (generateHash, generateQRCodeData,
                                               validateQRCode, daysBetween)
      - backened/src/controllers/leaveController.js
      - backened/src/controllers/qrController.js
      - the database schema (tables, NOT NULL columns) and the db helper
        (getOne, insert, transaction).

    Conventions.
      - A SQL table is the list of its rows in insertion order; a WHERE
        clause is a [filter], UPDATE ... WHERE is a [map], getOne is [find].
      - A JS Date is its number of milliseconds (Z); a DATE column is a day
        number, read back by the driver as the Date of that day's midnight.
      - [parseInt(process.env.X) || d] : the variable is [option Z]
        ([None] when unset or not a number), and 0 falls back to [d] too.
      - A handler is a function from the database (and the clock readings it
        makes) to a response and the new database; what a handler throws is
        caught by its own [catch] block, which answers 500. *)

From Stdlib Require Import ZArith List String Ascii Bool Lia.
From Stdlib Require Import DecimalString.
From Stdlib Require Import Sorted.
Import ListNotations.
Open Scope string_scope.
Open Scope Z_scope.

(* ================================================================= *)
(** ** Small helpers *)

Definition MS_PER_DAY : Z := 1000 * 60 * 60 * 24.

(** The Date of local midnight of a day number. *)
Definition midnight (day : Z) : Z := day * MS_PER_DAY.

(** [d.setHours(23, 59, 59)] on a Date that stands at midnight. *)
Definition setHours_23_59_59 (t : Z) : Z :=
  t + (23 * 3600 + 59 * 60 + 59) * 1000.

(** [Math.ceil(a / b)] for integers, [b > 0]. *)
Definition ceil_div (a b : Z) : Z := - ((- a) / b).

(** [parseInt(process.env.X) || d] *)
Definition or_default (v : option Z) (d : Z) : Z :=
  match v with
  | Some n => if n =? 0 then d else n
  | None => d
  end.

(** JS truthiness of an optional string / optional id. *)
Definition truthy (s : option string) : bool :=
  match s with
  | Some EmptyString => false
  | Some _ => true
  | None => false
  end.

Definition truthy_id (n : option Z) : bool :=
  match n with
  | Some k => negb (k =? 0)
  | None => false
  end.

Definition opt_Z_eqb (a : option Z) (b : Z) : bool :=
  match a with
  | Some x => x =? b
  | None => false          (* NULL = ? is never true *)
  end.

(** Template-literal rendering of an integer. *)
Definition show_Z (z : Z) : string := NilZero.string_of_int (Z.to_int z).

(** AUTO_INCREMENT: one more than the largest id in the table. *)
Definition next_id {A : Type} (key : A -> Z) (rows : list A) : Z :=
  1 + fold_right (fun r m => Z.max (key r) m) 0 rows.

(* ================================================================= *)
(** ** JSON.stringify of strings and of the two object shapes used *)

Definition dquote : ascii := ascii_of_N 34.
Definition backslash : ascii := ascii_of_N 92.

Definition hex_digit (n : N) : ascii :=
  if (n <? 10)%N then ascii_of_N (48 + n) else ascii_of_N (87 + n).

Definition hex_value (c : ascii) : N :=
  let n := N_of_ascii c in
  if (n <? 58)%N then (n - 48)%N else (n - 87)%N.

Definition str1 (c : ascii) : string := String c EmptyString.
Definition esc (c : ascii) : string := String backslash (str1 c).

(** QuoteJSONString, one code unit. *)
Definition escape_char (c : ascii) : string :=
  let n := N_of_ascii c in
  if (n =? 34)%N then esc dquote
  else if (n =? 92)%N then esc backslash
  else if (n =? 8)%N then esc "b"
  else if (n =? 12)%N then esc "f"
  else if (n =? 10)%N then esc "n"
  else if (n =? 13)%N then esc "r"
  else if (n =? 9)%N then esc "t"
  else if (n <? 32)%N then
    String backslash
      (String "u" (String "0" (String "0"
         (String (hex_digit (n / 16)) (str1 (hex_digit (n mod 16)))))))
  else str1 c.

Fixpoint escape (s : string) : string :=
  match s with
  | EmptyString => EmptyString
  | String c r => escape_char c ++ escape r
  end.

(** Reading one escaped code unit back (used to show [escape] loses
    nothing). *)
Definition unescape_head (s : string) : option (ascii * string) :=
  match s with
  | EmptyString => None
  | String c r =>
      if (N_of_ascii c =? 92)%N then
        match r with
        | EmptyString => None
        | String d r' =>
            let k := N_of_ascii d in
            if (k =? 34)%N then Some (dquote, r')
            else if (k =? 92)%N then Some (backslash, r')
            else if (k =? 98)%N then Some (ascii_of_N 8, r')
            else if (k =? 102)%N then Some (ascii_of_N 12, r')
            else if (k =? 110)%N then Some (ascii_of_N 10, r')
            else if (k =? 114)%N then Some (ascii_of_N 13, r')
            else if (k =? 116)%N then Some (ascii_of_N 9, r')
            else
              match r' with
              | String _ (String _ (String h1 (String h2 r''))) =>
                  Some (ascii_of_N (16 * hex_value h1 + hex_value h2), r'')
              | _ => None
              end
        end
      else Some (c, r)
  end.

Definition json_string (s : string) : string :=
  String dquote (escape s ++ str1 dquote).

Definition json_number (z : Z) : string := show_Z z.

Definition json_key (k : string) : string := json_string k ++ ":".

Definition json_opt_string (o : option string) : string :=
  match o with
  | Some s => json_string s
  | None => "null"
  end.

(** [JSON.stringify({ leaveId, studentId, fromDate })] *)
Definition stringify_binding (leaveId studentId : Z) (fromDate : string)
  : string :=
  "{" ++ json_key "leaveId" ++ json_number leaveId
      ++ "," ++ json_key "studentId" ++ json_number studentId
      ++ "," ++ json_key "fromDate" ++ json_string fromDate ++ "}".

(** The object a QR code carries, as [generateQRCodeData] builds it. *)
Record QRData := mkQRData {
  leaveId : Z;
  studentId : Z;
  collegeId : string;
  studentName : string;
  fromDate : string;            (* a Date, through toJSON *)
  toDate : string;
  validFrom : option string;    (* null or a Date through toJSON *)
  hash : string
}.

Definition stringify_qr (d : QRData) : string :=
  "{" ++ json_key "leaveId" ++ json_number (leaveId d)
      ++ "," ++ json_key "studentId" ++ json_number (studentId d)
      ++ "," ++ json_key "collegeId" ++ json_string (collegeId d)
      ++ "," ++ json_key "studentName" ++ json_string (studentName d)
      ++ "," ++ json_key "fromDate" ++ json_string (fromDate d)
      ++ "," ++ json_key "toDate" ++ json_string (toDate d)
      ++ "," ++ json_key "validFrom" ++ json_opt_string (validFrom d)
      ++ "," ++ json_key "hash" ++ json_string (hash d) ++ "}".

(** Replacing the [fromDate] field of a decoded token. *)
Definition with_fromDate (d : QRData) (f : string) : QRData :=
  mkQRData (leaveId d) (studentId d) (collegeId d) (studentName d)
           f (toDate d) (validFrom d) (hash d).

(** Two strings that differ in exactly one character. *)
Inductive flip_one : string -> string -> Prop :=
| flip_here (a b : ascii) (s : string) :
    a <> b -> flip_one (String a s) (String b s)
| flip_later (a : ascii) (s s' : string) :
    flip_one s s' -> flip_one (String a s) (String a s').

(** What the runtime and the libraries provide. *)
Record Platform := mkPlatform {
  (** [JSON.parse] followed by the field reads of a QR object; [None]
      when it throws. *)
  JSON_parse : string -> option QRData;
  (** [crypto.createHash('sha256').update(x).digest('hex')] *)
  sha256_hex : string -> string;
  (** [Date.prototype.toJSON] *)
  toISOString : Z -> string;
  (** [Date.prototype.toLocaleString] *)
  toLocaleString : Z -> string;
  (** [QRCode.toDataURL(data, { width })] *)
  toDataURL : Z -> string -> string;
  (** the text of a date as the client sent it *)
  date_text : Z -> string
}.

(** [process.env] *)
Record Env := mkEnv {
  JWT_SECRET : string;
  MAX_REGULAR_LEAVE_DAYS : option Z;
  MIN_ADVANCE_DAYS : option Z;
  QR_CODE_VALIDITY_HOURS : option Z;
  QR_CODE_SIZE : option Z
}.

(* ================================================================= *)
(** ** The database: one module per table, columns as in the schema *)

Inductive LeaveStatus :=
| PENDING | APPROVED_DW | APPROVED_PRINCIPAL | REJECTED | LEAVE_EXPIRED.

Inductive ExtensionStatus := EXT_PENDING | EXT_APPROVED | EXT_REJECTED.

Inductive ValidationStatus := VALID | INVALID | EXPIRED | UNAUTHORIZED | MANUAL.

Definition LeaveStatus_eqb (a b : LeaveStatus) : bool :=
  match a, b with
  | PENDING, PENDING | APPROVED_DW, APPROVED_DW
  | APPROVED_PRINCIPAL, APPROVED_PRINCIPAL | REJECTED, REJECTED
  | LEAVE_EXPIRED, LEAVE_EXPIRED => true
  | _, _ => false
  end.

Definition ValidationStatus_eqb (a b : ValidationStatus) : bool :=
  match a, b with
  | VALID, VALID | INVALID, INVALID | EXPIRED, EXPIRED
  | UNAUTHORIZED, UNAUTHORIZED | MANUAL, MANUAL => true
  | _, _ => false
  end.

Module users.
Record row := mk {
  id : Z;
  role_name : string;          (* through roles.role_name *)
  is_active : bool
}.
End users.

Module students.
Record row := mk {
  id : Z;
  user_id : Z;
  college_id : string;
  student_name : string;
  department : option string;
  hostel_block : option string;
  room_number : option string;
  photo_url : option string;
  parent_id : option Z         (* users.id of the parent *)
}.
End students.

Module staff.
Record row := mk { id : Z; user_id : Z }.
End staff.

Module parents.
Record row := mk { id : Z; user_id : Z }.
End parents.

Module leave_applications.
Record row := mk {
  id : Z;
  student_id : Z;
  leave_type : string;
  from_date : Z;                       (* DATE: day number *)
  to_date : Z;
  reason : string;
  destination : option string;
  contact_during_leave : option string;
  status : LeaveStatus;
  approved_by_dw : option Z;
  approved_by_principal : option Z;
  dw_remarks : option string;
  principal_remarks : option string;
  dw_approved_at : option Z;
  principal_approved_at : option Z;
  qr_code_generated : bool;
  qr_code_data : option string;
  qr_code_expires_at : option Z        (* TIMESTAMP: milliseconds *)
}.
End leave_applications.

Module emergency_extensions.
Record row := mk {
  id : Z;
  leave_application_id : Z;
  requested_by_parent : Z;
  extended_to_date : Z;
  reason : option string;
  status : ExtensionStatus;
  approved_by : option Z;
  remarks : option string;
  approved_at : option Z
}.
End emergency_extensions.

Module gate_logs.
Record row := mk {
  id : Z;
  student_id : Z;                      (* INT NOT NULL *)
  leave_application_id : option Z;     (* INT NULL *)
  action_type : string;
  scanned_by : Z;
  scan_timestamp : Z;                  (* DEFAULT CURRENT_TIMESTAMP *)
  qr_code_data : option string;
  validation_status : ValidationStatus;
  validation_message : string;
  location : option string
}.
End gate_logs.

Module notifications.
Record row := mk {
  user_id : Z;
  notification_type : string;
  title : string;
  message : string;
  related_leave_id : option Z
}.
End notifications.

Record DB := mkDB {
  t_users : list users.row;
  t_students : list students.row;
  t_staff : list staff.row;
  t_parents : list parents.row;
  t_leave_applications : list leave_applications.row;
  t_emergency_extensions : list emergency_extensions.row;
  t_gate_logs : list gate_logs.row;
  t_notifications : list notifications.row
}.

Definition set_leave_applications (db : DB)
    (l : list leave_applications.row) : DB :=
  mkDB (t_users db) (t_students db) (t_staff db) (t_parents db)
       l (t_emergency_extensions db) (t_gate_logs db) (t_notifications db).

Definition set_emergency_extensions (db : DB)
    (l : list emergency_extensions.row) : DB :=
  mkDB (t_users db) (t_students db) (t_staff db) (t_parents db)
       (t_leave_applications db) l (t_gate_logs db) (t_notifications db).

Definition set_gate_logs (db : DB) (l : list gate_logs.row) : DB :=
  mkDB (t_users db) (t_students db) (t_staff db) (t_parents db)
       (t_leave_applications db) (t_emergency_extensions db) l
       (t_notifications db).

Definition add_notifications (db : DB) (l : list notifications.row) : DB :=
  mkDB (t_users db) (t_students db) (t_staff db) (t_parents db)
       (t_leave_applications db) (t_emergency_extensions db) (t_gate_logs db)
       (t_notifications db ++ l)%list.

(** A response: HTTP status, [success], [message] (empty when the handler
    sends none) and the [data] object when the handler sends one. *)
Record Response (A : Type) := mkResponse {
  http : Z;
  success : bool;
  message : string;
  data : option A
}.
Arguments mkResponse {A}.
Arguments http {A}.
Arguments success {A}.
Arguments message {A}.
Arguments data {A}.

Definition fail {A : Type} (code : Z) (m : string) : Response A :=
  mkResponse code false m None.

Definition is_approved (s : LeaveStatus) : bool :=
  match s with
  | APPROVED_DW | APPROVED_PRINCIPAL => true
  | _ => false
  end.

(** [DATEDIFF(la.to_date, la.from_date) + 1] *)
Definition sql_duration (la : leave_applications.row) : Z :=
  leave_applications.to_date la - leave_applications.from_date la + 1.

(** helpers.js [daysBetween] on two dates given as day numbers. *)
Definition daysBetween (startDate endDate : Z) : Z :=
  ceil_div (Z.abs (midnight endDate - midnight startDate)) MS_PER_DAY + 1.

(** [SELECT * FROM students WHERE user_id = ?] *)
Definition student_of_user (db : DB) (uid : Z) : option students.row :=
  find (fun s => students.user_id s =? uid) (t_students db).

Definition student_by_id (db : DB) (sid : Z) : option students.row :=
  find (fun s => students.id s =? sid) (t_students db).

(** [SELECT id FROM staff WHERE user_id = ?] *)
Definition staff_of_user (db : DB) (uid : Z) : option staff.row :=
  find (fun s => staff.user_id s =? uid) (t_staff db).

(** [SELECT id FROM parents WHERE user_id = ?] *)
Definition parent_of_user (db : DB) (uid : Z) : option parents.row :=
  find (fun p => parents.user_id p =? uid) (t_parents db).

(** The active deputy wardens' user ids. *)
Definition deputyWardens (db : DB) : list Z :=
  map users.id
      (filter (fun u => (users.role_name u =? "DEPUTY_WARDEN")%string
                        && users.is_active u) (t_users db)).

(* ================================================================= *)
(** ** helpers.js and qrController.js *)

(** What [validateQRCode] returns. *)
Record Validation := mkValidation {
  valid : bool;
  leave : option leave_applications.row;
  vmessage : string
}.

Definition invalid (m : string) : Validation := mkValidation false None m.

(** The scan request body. *)
Record ScanBody := mkScanBody {
  qrData : option string;
  actionType : option string;
  location : option string
}.

(** The [logEntry] object of [scanQRCode]. *)
Record LogEntry := mkLogEntry {
  log_studentId : option Z;
  log_leaveApplicationId : option Z;
  log_actionType : string;
  scannedBy : Z;
  qrCodeData : string;
  validationStatus : ValidationStatus;
  validationMessage : string;
  log_location : string
}.

(** The clock readings of one scan: [new Date()] in [validateQRCode],
    [new Date()] of the re-entry check, CURRENT_TIMESTAMP of the insert and
    [new Date()] of the response. *)
Record ScanClock := mkScanClock {
  now : Z;
  today : Z;
  db_now : Z;
  resp_now : Z
}.

Record ScanLeave := mkScanLeave {
  sl_fromDate : Z;
  sl_toDate : Z;
  sl_status : LeaveStatus
}.

Record ScanData := mkScanData {
  logId : Z;
  sd_actionType : string;
  sd_validationStatus : ValidationStatus;
  timestamp : Z;
  sd_student : option students.row;
  sd_leave : option ScanLeave;
  allowed : bool
}.

Record ManualBody := mkManualBody {
  mb_collegeId : option string;
  mb_actionType : option string;
  mb_reason : option string
}.

Record ManualData := mkManualData {
  md_logId : Z;
  md_studentName : string;
  md_actionType : string
}.

(** One row of the students-outside listing. *)
Record OutsideRow := mkOutsideRow {
  o_id : Z;
  o_college_id : string;
  o_student_name : string;
  o_department : option string;
  o_hostel_block : option string;
  o_room_number : option string;
  o_from_date : Z;
  o_to_date : Z;
  exit_time : Z
}.

Definition OutsideRow_eq_dec (a b : OutsideRow) : {a = b} + {a <> b}.
Proof.
  decide equality; try apply Z.eq_dec; try apply string_dec;
    decide equality; apply string_dec.
Defined.

(** [ORDER BY exit_time DESC] *)
Fixpoint insert_desc (r : OutsideRow) (l : list OutsideRow) : list OutsideRow :=
  match l with
  | [] => [r]
  | x :: l' =>
      if exit_time x <? exit_time r then r :: l else x :: insert_desc r l'
  end.

Definition order_by_exit_time_desc (l : list OutsideRow) : list OutsideRow :=
  fold_right insert_desc [] l.

(** [ORDER BY scan_timestamp DESC LIMIT 1]: the row with the greatest
    timestamp, the later insertion among equal ones. *)
Definition latest (l : list gate_logs.row) : option gate_logs.row :=
  fold_left
    (fun acc g =>
       match acc with
       | None => Some g
       | Some a =>
           if gate_logs.scan_timestamp a <=? gate_logs.scan_timestamp g
           then Some g else Some a
       end) l None.

(** [SELECT action_type FROM gate_logs
     WHERE student_id = ? AND leave_application_id = ?
     ORDER BY scan_timestamp DESC LIMIT 1] *)
Definition lastLog (db : DB) (sid lid : Z) : option gate_logs.row :=
  latest
    (filter (fun g => (gate_logs.student_id g =? sid)
                      && opt_Z_eqb (gate_logs.leave_application_id g) lid)
            (t_gate_logs db)).

(** [SELECT la.*, ... FROM leave_applications la
     JOIN students s ON la.student_id = s.id WHERE la.id = ? AND s.id = ?] *)
Definition leave_of (db : DB) (lid sid : Z) : option leave_applications.row :=
  match find (fun la => (leave_applications.id la =? lid)
                        && (leave_applications.student_id la =? sid))
             (t_leave_applications db) with
  | Some la =>
      match student_by_id db sid with
      | Some _ => Some la
      | None => None
      end
  | None => None
  end.

(** INSERT INTO gate_logs. [student_id] is declared INT NOT NULL, so the
    server refuses a row whose student is NULL and [db.insert] throws. The
    foreign keys hold on every path that reaches the insert (the student
    and the leave were just read, the scanner is the logged-in user). *)
Definition insert_gate_log (db : DB) (stamp : Z)
    (student : option Z) (leaveApp : option Z) (action : string)
    (by_user : Z) (qr : option string) (st : ValidationStatus)
    (msg : string) (loc : option string) : option (Z * DB) :=
  match student with
  | None => None
  | Some sid =>
      let new_id := next_id gate_logs.id (t_gate_logs db) in
      Some (new_id,
            set_gate_logs db
              (t_gate_logs db ++
               [gate_logs.mk new_id sid leaveApp action by_user stamp qr
                             st msg loc])%list)
  end.

Section Handlers.

Variable P : Platform.

(** helpers.js [generateHash], on the object { leaveId, studentId,
    fromDate } it is always called with. *)
Definition generateHash (env : Env) (lid sid : Z) (from : string) : string :=
  sha256_hex P (stringify_binding lid sid from ++ JWT_SECRET env).

(** The [data] object of [generateQRCodeData]. *)
Definition qrObject (env : Env) (la : leave_applications.row)
    (s : students.row) : QRData :=
  let from := toISOString P (midnight (leave_applications.from_date la)) in
  mkQRData (leave_applications.id la) (students.id s)
           (students.college_id s) (students.student_name s)
           from
           (toISOString P (midnight (leave_applications.to_date la)))
           (option_map (toISOString P)
                       (leave_applications.qr_code_expires_at la))
           (generateHash env (leave_applications.id la) (students.id s) from).

Definition generateQRCodeData (env : Env) (la : leave_applications.row)
    (s : students.row) : string :=
  stringify_qr (qrObject env la s).

(** [leave.to_date] at 23:59:59. *)
Definition end_of_leave (la : leave_applications.row) : Z :=
  setHours_23_59_59 (midnight (leave_applications.to_date la)).

(** helpers.js [validateQRCode]. [new Date(null)] is the epoch. *)
Definition validateQRCode (env : Env) (db : DB) (now_ : Z) (qr : string)
  : Validation :=
  match JSON_parse P qr with
  | None => invalid "Invalid QR code format"
  | Some d =>
      let expectedHash := generateHash env (leaveId d) (studentId d)
                                       (fromDate d) in
      if negb (hash d =? expectedHash)%string then
        invalid "QR code tampered or invalid"
      else
        match leave_of db (leaveId d) (studentId d) with
        | None => invalid "Leave application not found"
        | Some la =>
            if negb (is_approved (leave_applications.status la)) then
              invalid "Leave not approved"
            else
              let validFrom_ :=
                match leave_applications.qr_code_expires_at la with
                | Some t => t
                | None => 0
                end in
              if now_ <? validFrom_ then
                invalid ("QR code not yet valid. Valid from "
                         ++ toLocaleString P validFrom_)
              else
                let toDate_ := end_of_leave la in
                if now_ >? toDate_ then invalid "Leave period expired"
                else mkValidation true (Some la) "Valid QR code"
        end
  end.

(** [location || 'Main Gate'] *)
Definition or_main_gate (loc : option string) : string :=
  if truthy loc then
    match loc with Some l => l | None => "Main Gate" end
  else "Main Gate".

(** qrController.js [scanQRCode], from the call of [validateQRCode] to the
    end of the re-entry check: the final [validation] and [logEntry].
    [None] when a statement throws. *)
Definition scanDecide (env : Env) (db : DB) (clk : ScanClock) (user : Z)
    (qr action : string) (loc : option string)
  : option (Validation * LogEntry) :=
  let validation := validateQRCode env db (now clk) qr in
  let logEntry :=
    mkLogEntry None None action user qr
               (if valid validation then VALID else INVALID)
               (vmessage validation)
               (or_main_gate loc) in
  if valid validation then
    match JSON_parse P qr with
    | None => None
    | Some q =>
        let logEntry :=
          mkLogEntry (Some (studentId q)) (Some (leaveId q))
                     (log_actionType logEntry) (scannedBy logEntry)
                     (qrCodeData logEntry) (validationStatus logEntry)
                     (validationMessage logEntry) (log_location logEntry) in
        let no_exit :=
          match lastLog db (studentId q) (leaveId q) with
          | Some g => negb (gate_logs.action_type g =? "EXIT")%string
          | None => true
          end in
        let '(validation, logEntry) :=
          if (action =? "ENTRY")%string && no_exit then
            let m := "No exit record found. Entry not allowed." in
            (mkValidation false (leave validation) m,
             mkLogEntry (log_studentId logEntry)
                        (log_leaveApplicationId logEntry)
                        (log_actionType logEntry) (scannedBy logEntry)
                        (qrCodeData logEntry) INVALID m
                        (log_location logEntry))
          else (validation, logEntry) in
        if (action =? "ENTRY")%string && valid validation then
          match leave validation with
          | None => None
          | Some la =>
              let toDate_ := end_of_leave la in
              if today clk >? toDate_ then
                let m := "Leave period expired" in
                Some (mkValidation false (leave validation) m,
                      mkLogEntry (log_studentId logEntry)
                                 (log_leaveApplicationId logEntry)
                                 (log_actionType logEntry)
                                 (scannedBy logEntry)
                                 (qrCodeData logEntry) EXPIRED m
                                 (log_location logEntry))
              else Some (validation, logEntry)
          end
        else Some (validation, logEntry)
    end
  else Some (validation, logEntry).

(** The four ways a scan is decided, as a relation between the request
    and the final [validation] and [logEntry]. *)
Inductive scan_outcome (env : Env) (db : DB) (clk : ScanClock) (user : Z)
    (qr action : string) (loc : option string)
  : Validation -> LogEntry -> Prop :=
| outcome_rejected :
    valid (validateQRCode env db (now clk) qr) = false ->
    scan_outcome env db clk user qr action loc
      (validateQRCode env db (now clk) qr)
      (mkLogEntry None None action user qr INVALID
                  (vmessage (validateQRCode env db (now clk) qr))
                  (or_main_gate loc))
| outcome_passed (q : QRData) (la : leave_applications.row) :
    JSON_parse P qr = Some q ->
    validateQRCode env db (now clk) qr
    = mkValidation true (Some la) "Valid QR code" ->
    (action <> "ENTRY"
     \/ exists g, lastLog db (studentId q) (leaveId q) = Some g
                  /\ gate_logs.action_type g = "EXIT"
                  /\ today clk <= end_of_leave la) ->
    scan_outcome env db clk user qr action loc
      (mkValidation true (Some la) "Valid QR code")
      (mkLogEntry (Some (studentId q)) (Some (leaveId q)) action user qr
                  VALID "Valid QR code" (or_main_gate loc))
| outcome_no_exit (q : QRData) (la : leave_applications.row) :
    JSON_parse P qr = Some q ->
    validateQRCode env db (now clk) qr
    = mkValidation true (Some la) "Valid QR code" ->
    action = "ENTRY" ->
    (forall g, lastLog db (studentId q) (leaveId q) = Some g ->
               gate_logs.action_type g <> "EXIT") ->
    scan_outcome env db clk user qr action loc
      (mkValidation false (Some la)
                    "No exit record found. Entry not allowed.")
      (mkLogEntry (Some (studentId q)) (Some (leaveId q)) action user qr
                  INVALID "No exit record found. Entry not allowed."
                  (or_main_gate loc))
| outcome_expired (q : QRData) (la : leave_applications.row)
    (g : gate_logs.row) :
    JSON_parse P qr = Some q ->
    validateQRCode env db (now clk) qr
    = mkValidation true (Some la) "Valid QR code" ->
    action = "ENTRY" ->
    lastLog db (studentId q) (leaveId q) = Some g ->
    gate_logs.action_type g = "EXIT" ->
    today clk > end_of_leave la ->
    scan_outcome env db clk user qr action loc
      (mkValidation false (Some la) "Leave period expired")
      (mkLogEntry (Some (studentId q)) (Some (leaveId q)) action user qr
                  EXPIRED "Leave period expired" (or_main_gate loc)).

(** qrController.js [scanQRCode]. *)
Definition scanQRCode (env : Env) (db : DB) (clk : ScanClock) (user : Z)
    (body : ScanBody) : Response ScanData * DB :=
  if negb (truthy (qrData body)) || negb (truthy (actionType body)) then
    (fail 400 "QR data and action type are required", db)
  else
    match qrData body, actionType body with
    | Some qr, Some action =>
        if negb ((action =? "EXIT")%string || (action =? "ENTRY")%string)
        then (fail 400 "Action type must be EXIT or ENTRY", db)
        else
          match scanDecide env db clk user qr action (location body) with
          | None => (fail 500 "QR code scanning failed", db)
          | Some (validation, logEntry) =>
              match insert_gate_log db (db_now clk)
                      (log_studentId logEntry)
                      (log_leaveApplicationId logEntry)
                      (log_actionType logEntry) (scannedBy logEntry)
                      (Some (qrCodeData logEntry))
                      (validationStatus logEntry)
                      (validationMessage logEntry)
                      (Some (log_location logEntry)) with
              | None => (fail 500 "QR code scanning failed", db)
              | Some (logId_, db') =>
                  let studentDetails :=
                    if valid validation
                       && truthy_id (log_studentId logEntry) then
                      match log_studentId logEntry with
                      | Some sid => student_by_id db' sid
                      | None => None
                      end
                    else None in
                  match (if valid validation then
                           match leave validation with
                           | Some la =>
                               Some (Some (mkScanLeave
                                 (leave_applications.from_date la)
                                 (leave_applications.to_date la)
                                 (leave_applications.status la)))
                           | None => None
                           end
                         else Some None) with
                  | None => (fail 500 "QR code scanning failed", db')
                  | Some leave_ =>
                      (mkResponse 200 (valid validation)
                         (vmessage validation)
                         (Some (mkScanData logId_ action
                                  (validationStatus logEntry)
                                  (resp_now clk) studentDetails leave_
                                  (valid validation))),
                       db')
                  end
              end
          end
    | _, _ => (fail 400 "QR data and action type are required", db)
    end.

(** qrController.js [manualEntryExit]. *)
Definition manualEntryExit (db : DB) (stamp : Z) (user : Z)
    (body : ManualBody) : Response ManualData * DB :=
  match mb_collegeId body, mb_actionType body, mb_reason body with
  | Some cid, Some action, Some reason_ =>
      if negb (truthy (mb_collegeId body))
         || negb (truthy (mb_actionType body))
         || negb (truthy (mb_reason body)) then
        (fail 400 "College ID, action type, and reason are required", db)
      else
        match find (fun s => (students.college_id s =? cid)%string)
                   (t_students db) with
        | None => (fail 404 "Student not found", db)
        | Some student =>
            match insert_gate_log db stamp (Some (students.id student)) None
                    action user None MANUAL
                    ("Manual " ++ action ++ ": " ++ reason_)
                    (Some "Main Gate") with
            | None => (fail 500 "Failed to record manual entry/exit", db)
            | Some (logId_, db') =>
                (mkResponse 200 true
                   ("Manual " ++ action ++ " recorded successfully")
                   (Some (mkManualData logId_ (students.student_name student)
                                       action)),
                 db')
            end
        end
  | _, _, _ =>
      (fail 400 "College ID, action type, and reason are required", db)
  end.

(** The subquery of [getStudentsOutside]:
    [gl.student_id NOT IN (SELECT student_id FROM gate_logs
       WHERE action_type = 'ENTRY' AND scan_timestamp > gl.scan_timestamp)] *)
Definition entered_after (db : DB) (gl : gate_logs.row) : bool :=
  existsb (fun g => (gate_logs.action_type g =? "ENTRY")%string
                    && (gate_logs.scan_timestamp g
                        >? gate_logs.scan_timestamp gl)
                    && (gate_logs.student_id g =? gate_logs.student_id gl))
          (t_gate_logs db).

(** One joined row of the outer query, when the row passes the joins and
    the WHERE clause. [curdate] is CURDATE(). *)
Definition outside_row (db : DB) (curdate : Z) (gl : gate_logs.row)
  : option OutsideRow :=
  match student_by_id db (gate_logs.student_id gl),
        gate_logs.leave_application_id gl with
  | Some s, Some lid =>
      match find (fun la => leave_applications.id la =? lid)
                 (t_leave_applications db) with
      | Some la =>
          if (gate_logs.action_type gl =? "EXIT")%string
             && ValidationStatus_eqb (gate_logs.validation_status gl) VALID
             && negb (entered_after db gl)
             && (leave_applications.to_date la >=? curdate)
          then Some (mkOutsideRow (students.id s) (students.college_id s)
                       (students.student_name s) (students.department s)
                       (students.hostel_block s) (students.room_number s)
                       (leave_applications.from_date la)
                       (leave_applications.to_date la)
                       (gate_logs.scan_timestamp gl))
          else None
      | None => None
      end
  | _, _ => None
  end.

Fixpoint select_rows {A B : Type} (f : A -> option B) (l : list A) : list B :=
  match l with
  | [] => []
  | x :: r =>
      match f x with
      | Some y => y :: select_rows f r
      | None => select_rows f r
      end
  end.

(** The query of [getStudentsOutside]. *)
Definition studentsOutside (db : DB) (curdate : Z) : list OutsideRow :=
  order_by_exit_time_desc
    (nodup OutsideRow_eq_dec (select_rows (outside_row db curdate)
                                          (t_gate_logs db))).

(** qrController.js [getStudentsOutside]: the rows and their count. *)
Definition getStudentsOutside (db : DB) (curdate : Z)
  : Response (list OutsideRow * Z) :=
  let rows := studentsOutside db curdate in
  mkResponse 200 true "" (Some (rows, Z.of_nat (List.length rows))).

(* ================================================================= *)
(** ** leaveController.js *)

Record ApplyBody := mkApplyBody {
  ab_fromDate : option Z;
  ab_toDate : option Z;
  ab_reason : option string;
  ab_destination : option string;
  ab_contactDuringLeave : option string;
  ab_leaveType : option string
}.

Record ApplyData := mkApplyData {
  ad_leaveId : Z;
  ad_duration : Z;
  requiresPrincipalApproval : bool
}.

Record DecideBody := mkDecideBody {
  action : option string;
  remarks : option string
}.

Record ExtensionBody := mkExtensionBody {
  eb_leaveId : Z;
  eb_extendedToDate : Z;
  eb_reason : option string
}.

Record QRResponse := mkQRResponse {
  qrCode : string;
  qr_validFrom : option Z;
  qr_fromDate : Z;
  qr_toDate : Z;
  qr_status : LeaveStatus
}.

(** [x BETWEEN lo AND hi] *)
Definition between (x lo hi : Z) : bool := (lo <=? x) && (x <=? hi).

(** The date test of the overlap query of [applyLeave]. *)
Definition overlap_clauses (fromDate_ toDate_ : Z)
    (la : leave_applications.row) : bool :=
  between fromDate_ (leave_applications.from_date la)
          (leave_applications.to_date la)
  || between toDate_ (leave_applications.from_date la)
             (leave_applications.to_date la)
  || between (leave_applications.from_date la) fromDate_ toDate_.

(** [status IN ('PENDING', 'APPROVED_DW', 'APPROVED_PRINCIPAL')] *)
Definition is_active_status (s : LeaveStatus) : bool :=
  match s with
  | PENDING | APPROVED_DW | APPROVED_PRINCIPAL => true
  | _ => false
  end.

Definition overlappingLeave (db : DB) (sid fromDate_ toDate_ : Z)
  : option leave_applications.row :=
  find (fun la => (leave_applications.student_id la =? sid)
                  && is_active_status (leave_applications.status la)
                  && overlap_clauses fromDate_ toDate_ la)
       (t_leave_applications db).

(** leaveController.js [applyLeave]. [today0] is [new Date()] after
    [setHours(0, 0, 0, 0)]. *)
Definition applyLeave (env : Env) (db : DB) (today0 : Z) (user : Z)
    (body : ApplyBody) : Response ApplyData * DB :=
  match student_of_user db user with
  | None => (fail 404 "Student profile not found", db)
  | Some student =>
      match ab_fromDate body, ab_toDate body, ab_reason body with
      | Some fromDate_, Some toDate_, Some reason_ =>
          if negb (truthy (ab_reason body)) then
            (fail 400 "From date, to date, and reason are required", db)
          else if midnight toDate_ <? midnight fromDate_ then
            (fail 400 "To date must be after from date", db)
          else
            let minAdvanceDays := or_default (MIN_ADVANCE_DAYS env) 2 in
            let daysUntilLeave :=
              ceil_div (midnight fromDate_ - today0) MS_PER_DAY in
            if daysUntilLeave <? minAdvanceDays then
              (fail 400 ("Leave must be applied at least "
                         ++ show_Z minAdvanceDays ++ " days in advance"), db)
            else
              match overlappingLeave db (students.id student)
                                     fromDate_ toDate_ with
              | Some _ =>
                  (fail 409 "You have an overlapping leave application", db)
              | None =>
                  let duration := daysBetween fromDate_ toDate_ in
                  let leaveId_ :=
                    next_id leave_applications.id (t_leave_applications db) in
                  let row :=
                    leave_applications.mk leaveId_ (students.id student)
                      (if truthy (ab_leaveType body) then
                         match ab_leaveType body with
                         | Some t => t
                         | None => "REGULAR"
                         end
                       else "REGULAR")
                      fromDate_ toDate_ reason_ (ab_destination body)
                      (ab_contactDuringLeave body) PENDING
                      None None None None None None false None None in
                  let to_parent :=
                    if truthy_id (students.parent_id student) then
                      match students.parent_id student with
                      | Some pid =>
                          [notifications.mk pid "LEAVE_APPLIED"
                             "Leave Application"
                             (students.student_name student
                              ++ " has applied for leave from "
                              ++ date_text P fromDate_ ++ " to "
                              ++ date_text P toDate_)
                             (Some leaveId_)]
                      | None => []
                      end
                    else [] in
                  let to_wardens :=
                    map (fun dw =>
                           notifications.mk dw "LEAVE_PENDING"
                             "New Leave Request"
                             ("New leave request from "
                              ++ students.student_name student ++ " for "
                              ++ show_Z duration ++ " days")
                             (Some leaveId_))
                        (deputyWardens db) in
                  (mkResponse 201 true
                     "Leave application submitted successfully"
                     (Some (mkApplyData leaveId_ duration
                              (duration >?
                               or_default (MAX_REGULAR_LEAVE_DAYS env) 15))),
                   add_notifications
                     (set_leave_applications db
                        (t_leave_applications db ++ [row])%list)
                     (to_parent ++ to_wardens)%list)
              end
      | _, _, _ =>
          (fail 400 "From date, to date, and reason are required", db)
      end
  end.

(** [UPDATE leave_applications SET qr_code_data = ?,
     qr_code_generated = TRUE, qr_code_expires_at = ? WHERE id = ?] *)
Definition set_qr (lid : Z) (qr : string) (validFrom_ : Z)
    (la : leave_applications.row) : leave_applications.row :=
  if leave_applications.id la =? lid then
    leave_applications.mk
      (leave_applications.id la) (leave_applications.student_id la)
      (leave_applications.leave_type la) (leave_applications.from_date la)
      (leave_applications.to_date la) (leave_applications.reason la)
      (leave_applications.destination la)
      (leave_applications.contact_during_leave la)
      (leave_applications.status la) (leave_applications.approved_by_dw la)
      (leave_applications.approved_by_principal la)
      (leave_applications.dw_remarks la)
      (leave_applications.principal_remarks la)
      (leave_applications.dw_approved_at la)
      (leave_applications.principal_approved_at la)
      true (Some qr) (Some validFrom_)
  else la.

(** [SELECT * FROM leave_applications WHERE id = ? AND student_id = ?] *)
Definition own_leave (db : DB) (lid sid : Z) : option leave_applications.row :=
  find (fun la => (leave_applications.id la =? lid)
                  && (leave_applications.student_id la =? sid))
       (t_leave_applications db).

(** leaveController.js [getLeaveQRCode]. *)
Definition getLeaveQRCode (env : Env) (db : DB) (user : Z) (lid : Z)
  : Response QRResponse * DB :=
  match student_of_user db user with
  | None => (fail 500 "Failed to generate QR code", db)
  | Some student =>
      match own_leave db lid (students.id student) with
      | None => (fail 404 "Leave application not found", db)
      | Some la =>
          if negb (is_approved (leave_applications.status la)) then
            (fail 400 "QR code only available for approved leaves", db)
          else
            let '(qr_data, expires_at, db') :=
              if negb (leave_applications.qr_code_generated la) then
                let validityHours :=
                  or_default (QR_CODE_VALIDITY_HOURS env) 2 in
                let fromDate_ := midnight (leave_applications.from_date la) in
                let qrValidFrom :=
                  fromDate_ - validityHours * 60 * 60 * 1000 in
                let qr := generateQRCodeData env la student in
                (Some qr, Some qrValidFrom,
                 set_leave_applications db
                   (map (set_qr lid qr qrValidFrom)
                        (t_leave_applications db)))
              else (leave_applications.qr_code_data la,
                    leave_applications.qr_code_expires_at la, db) in
            match qr_data with
            | None => (fail 500 "Failed to generate QR code", db')
            | Some qr =>
                (mkResponse 200 true ""
                   (Some (mkQRResponse
                            (toDataURL P (or_default (QR_CODE_SIZE env) 300)
                                       qr)
                            expires_at
                            (leave_applications.from_date la)
                            (leave_applications.to_date la)
                            (leave_applications.status la))),
                 db')
            end
      end
  end.

(** [['approve', 'reject'].includes(action)] on a truthy action. *)
Definition action_ok (a : option string) : bool :=
  match a with
  | Some s => (s =? "approve")%string || (s =? "reject")%string
  | None => false
  end.

Definition is_approve (a : option string) : bool :=
  match a with
  | Some s => (s =? "approve")%string
  | None => false
  end.

(** [SELECT la.*, s.user_id as student_user_id, ...
     FROM leave_applications la JOIN students s ON la.student_id = s.id
     WHERE la.id = ? AND la.status = 'PENDING'] *)
Definition pending_leave (db : DB) (lid : Z)
  : option (leave_applications.row * students.row) :=
  match find (fun la => (leave_applications.id la =? lid)
                        && LeaveStatus_eqb (leave_applications.status la)
                                           PENDING)
             (t_leave_applications db) with
  | Some la =>
      match student_by_id db (leave_applications.student_id la) with
      | Some s => Some (la, s)
      | None => None
      end
  | None => None
  end.

(** [UPDATE leave_applications SET status = ?, approved_by_dw = ?,
     dw_remarks = ?, dw_approved_at = NOW() WHERE id = ?] *)
Definition set_dw (lid : Z) (st : LeaveStatus) (by_staff : Z)
    (rem : option string) (at_ : Z) (la : leave_applications.row)
  : leave_applications.row :=
  if leave_applications.id la =? lid then
    leave_applications.mk
      (leave_applications.id la) (leave_applications.student_id la)
      (leave_applications.leave_type la) (leave_applications.from_date la)
      (leave_applications.to_date la) (leave_applications.reason la)
      (leave_applications.destination la)
      (leave_applications.contact_during_leave la)
      st (Some by_staff)
      (leave_applications.approved_by_principal la)
      rem
      (leave_applications.principal_remarks la)
      (Some at_)
      (leave_applications.principal_approved_at la)
      (leave_applications.qr_code_generated la)
      (leave_applications.qr_code_data la)
      (leave_applications.qr_code_expires_at la)
  else la.

(** [UPDATE leave_applications SET status = ?, approved_by_principal = ?,
     principal_remarks = ?, principal_approved_at = NOW() WHERE id = ?] *)
Definition set_principal (lid : Z) (st : LeaveStatus) (by_staff : Z)
    (rem : option string) (at_ : Z) (la : leave_applications.row)
  : leave_applications.row :=
  if leave_applications.id la =? lid then
    leave_applications.mk
      (leave_applications.id la) (leave_applications.student_id la)
      (leave_applications.leave_type la) (leave_applications.from_date la)
      (leave_applications.to_date la) (leave_applications.reason la)
      (leave_applications.destination la)
      (leave_applications.contact_during_leave la)
      st
      (leave_applications.approved_by_dw la)
      (Some by_staff)
      (leave_applications.dw_remarks la)
      rem
      (leave_applications.dw_approved_at la)
      (Some at_)
      (leave_applications.qr_code_generated la)
      (leave_applications.qr_code_data la)
      (leave_applications.qr_code_expires_at la)
  else la.

(** The notification both tiers send to the student. *)
Definition decision_notification (approve : bool) (by_principal : bool)
    (rem : option string) (student_user : Z) (lid : Z) : notifications.row :=
  notifications.mk student_user
    (if approve then "LEAVE_APPROVED" else "LEAVE_REJECTED")
    (if approve then "Leave Approved" else "Leave Rejected")
    (if approve then
       (if by_principal
        then "Your leave application has been approved by Principal"
        else "Your leave application has been approved")
     else "Your leave application has been rejected. Reason: "
          ++ (if truthy rem then
                match rem with Some r => r | None => "Not specified" end
              else "Not specified"))
    (Some lid).

Definition processed_message (approve : bool) : string :=
  "Leave " ++ (if approve then "approved" else "rejected") ++ " successfully".

(** leaveController.js [processLeaveByDW]. [at_] is NOW(). *)
Definition processLeaveByDW (env : Env) (db : DB) (at_ : Z) (user : Z)
    (lid : Z) (body : DecideBody) : Response unit * DB :=
  if negb (truthy (action body)) || negb (action_ok (action body)) then
    (fail 400 "Valid action (approve/reject) is required", db)
  else
    let staff_ := staff_of_user db user in
    match pending_leave db lid with
    | None => (fail 404 "Leave application not found or already processed", db)
    | Some (la, s) =>
        let maxDays := or_default (MAX_REGULAR_LEAVE_DAYS env) 15 in
        if sql_duration la >? maxDays then
          (fail 400 ("Leave duration exceeds " ++ show_Z maxDays
                     ++ " days. Principal approval required."), db)
        else
          match staff_ with
          | None => (fail 500 "Failed to process leave application", db)
          | Some st =>
              let approve := is_approve (action body) in
              let newStatus := if approve then APPROVED_DW else REJECTED in
              (mkResponse 200 true (processed_message approve) None,
               add_notifications
                 (set_leave_applications db
                    (map (set_dw lid newStatus (staff.id st) (remarks body)
                                 at_)
                         (t_leave_applications db)))
                 [decision_notification approve false (remarks body)
                    (students.user_id s) lid])
          end
    end.

(** leaveController.js [processLeaveByPrincipal]. *)
Definition processLeaveByPrincipal (db : DB) (at_ : Z) (user : Z)
    (lid : Z) (body : DecideBody) : Response unit * DB :=
  if negb (truthy (action body)) || negb (action_ok (action body)) then
    (fail 400 "Valid action (approve/reject) is required", db)
  else
    let staff_ := staff_of_user db user in
    match pending_leave db lid with
    | None => (fail 404 "Leave application not found or already processed", db)
    | Some (la, s) =>
        match staff_ with
        | None => (fail 500 "Failed to process leave application", db)
        | Some st =>
            let approve := is_approve (action body) in
            let newStatus := if approve then APPROVED_PRINCIPAL else REJECTED in
            (mkResponse 200 true (processed_message approve) None,
             add_notifications
               (set_leave_applications db
                  (map (set_principal lid newStatus (staff.id st)
                                      (remarks body) at_)
                       (t_leave_applications db)))
               [decision_notification approve true (remarks body)
                  (students.user_id s) lid])
        end
    end.

(** [SELECT la.*, s.student_name, s.parent_id FROM leave_applications la
     JOIN students s ON la.student_id = s.id
     WHERE la.id = ? AND s.parent_id = ?] *)
Definition leave_of_child (db : DB) (lid user : Z)
  : option (leave_applications.row * students.row) :=
  match find (fun la =>
                (leave_applications.id la =? lid)
                && match student_by_id db (leave_applications.student_id la)
                   with
                   | Some s => opt_Z_eqb (students.parent_id s) user
                   | None => false
                   end)
             (t_leave_applications db) with
  | Some la =>
      match student_by_id db (leave_applications.student_id la) with
      | Some s => Some (la, s)
      | None => None
      end
  | None => None
  end.

(** leaveController.js [requestEmergencyExtension].
    [emergency_extensions.reason] is TEXT NOT NULL. *)
Definition requestEmergencyExtension (db : DB) (user : Z)
    (body : ExtensionBody) : Response Z * DB :=
  let parent := parent_of_user db user in
  match leave_of_child db (eb_leaveId body) user with
  | None => (fail 404 "Leave application not found", db)
  | Some (la, s) =>
      if negb (is_approved (leave_applications.status la)) then
        (fail 400 "Can only extend approved leaves", db)
      else if midnight (eb_extendedToDate body)
              <=? midnight (leave_applications.to_date la) then
        (fail 400 "Extended date must be after current end date", db)
      else
        match parent, eb_reason body with
        | Some p, Some reason_ =>
            let extId :=
              next_id emergency_extensions.id (t_emergency_extensions db) in
            (mkResponse 201 true "Emergency extension requested successfully"
               (Some extId),
             add_notifications
               (set_emergency_extensions db
                  (t_emergency_extensions db ++
                   [emergency_extensions.mk extId (eb_leaveId body)
                      (parents.id p) (eb_extendedToDate body) (Some reason_)
                      EXT_PENDING None None None])%list)
               (map (fun dw =>
                       notifications.mk dw "EXTENSION_REQUEST"
                         "Emergency Extension Request"
                         ("Emergency extension requested for "
                          ++ students.student_name s ++ "'s leave")
                         (Some (eb_leaveId body)))
                    (deputyWardens db)))
        | _, _ => (fail 500 "Failed to request extension", db)
        end
  end.

(** [SELECT ee.*, la.student_id, s.user_id as student_user_id,
            p.user_id as parent_user_id
     FROM emergency_extensions ee
     JOIN leave_applications la ON ee.leave_application_id = la.id
     JOIN students s ON la.student_id = s.id
     JOIN parents p ON ee.requested_by_parent = p.id
     WHERE ee.id = ? AND ee.status = 'PENDING'] *)
Definition pending_extension (db : DB) (eid : Z)
  : option (emergency_extensions.row * Z * Z) :=
  match find (fun ee =>
                (emergency_extensions.id ee =? eid)
                && match emergency_extensions.status ee with
                   | EXT_PENDING => true
                   | _ => false
                   end)
             (t_emergency_extensions db) with
  | Some ee =>
      match find (fun la => leave_applications.id la
                            =? emergency_extensions.leave_application_id ee)
                 (t_leave_applications db) with
      | Some la =>
          match student_by_id db (leave_applications.student_id la),
                find (fun p => parents.id p
                               =? emergency_extensions.requested_by_parent ee)
                     (t_parents db) with
          | Some s, Some p => Some (ee, students.user_id s, parents.user_id p)
          | _, _ => None
          end
      | None => None
      end
  | None => None
  end.

(** [UPDATE emergency_extensions SET status = ?, approved_by = ?,
     remarks = ?, approved_at = NOW() WHERE id = ?] *)
Definition set_extension (eid : Z) (st : ExtensionStatus) (by_staff : Z)
    (rem : option string) (at_ : Z) (ee : emergency_extensions.row)
  : emergency_extensions.row :=
  if emergency_extensions.id ee =? eid then
    emergency_extensions.mk
      (emergency_extensions.id ee)
      (emergency_extensions.leave_application_id ee)
      (emergency_extensions.requested_by_parent ee)
      (emergency_extensions.extended_to_date ee)
      (emergency_extensions.reason ee)
      st (Some by_staff) rem (Some at_)
  else ee.

(** [UPDATE leave_applications SET to_date = ? WHERE id = ?] *)
Definition set_to_date (lid : Z) (d : Z) (la : leave_applications.row)
  : leave_applications.row :=
  if leave_applications.id la =? lid then
    leave_applications.mk
      (leave_applications.id la) (leave_applications.student_id la)
      (leave_applications.leave_type la) (leave_applications.from_date la)
      d (leave_applications.reason la)
      (leave_applications.destination la)
      (leave_applications.contact_during_leave la)
      (leave_applications.status la) (leave_applications.approved_by_dw la)
      (leave_applications.approved_by_principal la)
      (leave_applications.dw_remarks la)
      (leave_applications.principal_remarks la)
      (leave_applications.dw_approved_at la)
      (leave_applications.principal_approved_at la)
      (leave_applications.qr_code_generated la)
      (leave_applications.qr_code_data la)
      (leave_applications.qr_code_expires_at la)
  else la.

(** leaveController.js [processEmergencyExtension]. The two updates and
    the notifications run in one transaction: a throw rolls all of it
    back. *)
Definition processEmergencyExtension (db : DB) (at_ : Z) (user : Z)
    (eid : Z) (body : DecideBody) : Response unit * DB :=
  let staff_ := staff_of_user db user in
  match pending_extension db eid with
  | None => (fail 404 "Extension request not found or already processed", db)
  | Some (extension, student_user_id, parent_user_id) =>
      match staff_ with
      | None => (fail 500 "Failed to process extension", db)
      | Some st =>
          let approve := is_approve (action body) in
          let newStatus := if approve then EXT_APPROVED else EXT_REJECTED in
          let db1 :=
            set_emergency_extensions db
              (map (set_extension eid newStatus (staff.id st) (remarks body)
                                  at_)
                   (t_emergency_extensions db)) in
          let db2 :=
            if approve then
              set_leave_applications db1
                (map (set_to_date
                        (emergency_extensions.leave_application_id extension)
                        (emergency_extensions.extended_to_date extension))
                     (t_leave_applications db1))
            else db1 in
          let m :=
            if approve then "Emergency extension approved"
            else "Emergency extension rejected. Reason: "
                 ++ (if truthy (remarks body) then
                       match remarks body with
                       | Some r => r
                       | None => "Not specified"
                       end
                     else "Not specified") in
          (mkResponse 200 true
             ("Extension " ++ (if approve then "approved" else "rejected")
              ++ " successfully") None,
           add_notifications db2
             (map (fun userId =>
                     notifications.mk userId "EXTENSION_PROCESSED" m m
                       (Some (emergency_extensions.leave_application_id
                                extension)))
                  [parent_user_id; student_user_id]))
      end
  end.

(* ================================================================= *)
(** ** The backend as a transition system *)

(** One request to a handler that writes to the database, with the clock
    readings it makes. *)
Inductive Request :=
| ReqApplyLeave (env : Env) (today0 user : Z) (body : ApplyBody)
| ReqLeaveQRCode (env : Env) (user lid : Z)
| ReqProcessByDW (env : Env) (at_ user lid : Z) (body : DecideBody)
| ReqProcessByPrincipal (at_ user lid : Z) (body : DecideBody)
| ReqExtension (user : Z) (body : ExtensionBody)
| ReqProcessExtension (at_ user eid : Z) (body : DecideBody)
| ReqScan (env : Env) (clk : ScanClock) (user : Z) (body : ScanBody)
| ReqManual (stamp user : Z) (body : ManualBody).

Definition handle (db : DB) (r : Request) : DB :=
  match r with
  | ReqApplyLeave env today0 user body =>
      snd (applyLeave env db today0 user body)
  | ReqLeaveQRCode env user lid => snd (getLeaveQRCode env db user lid)
  | ReqProcessByDW env at_ user lid body =>
      snd (processLeaveByDW env db at_ user lid body)
  | ReqProcessByPrincipal at_ user lid body =>
      snd (processLeaveByPrincipal db at_ user lid body)
  | ReqExtension user body => snd (requestEmergencyExtension db user body)
  | ReqProcessExtension at_ user eid body =>
      snd (processEmergencyExtension db at_ user eid body)
  | ReqScan env clk user body => snd (scanQRCode env db clk user body)
  | ReqManual stamp user body => snd (manualEntryExit db stamp user body)
  end.

(** The databases the backend can be in: it starts with an empty gate
    log; every request is handled by one of the handlers above; the other
    controllers (profile, registration, notifications) write neither the
    leave tables nor the gate log. *)
Inductive reachable : DB -> Prop :=
| reach_init (db : DB) : t_gate_logs db = [] -> reachable db
| reach_handle (db : DB) (r : Request) :
    reachable db -> reachable (handle db r)
| reach_other (db db' : DB) :
    reachable db ->
    t_gate_logs db' = t_gate_logs db ->
    t_leave_applications db' = t_leave_applications db ->
    t_emergency_extensions db' = t_emergency_extensions db ->
    reachable db'.




(** The gate_logs row the insert of [scanQRCode] writes for [e]. *)
Definition row_of_entry (new_id sid stamp : Z) (e : LogEntry)
  : gate_logs.row :=
  gate_logs.mk new_id sid (log_leaveApplicationId e) (log_actionType e)
               (scannedBy e) stamp (Some (qrCodeData e))
               (validationStatus e) (validationMessage e)
               (Some (log_location e)).




End Handlers.

(* ================================================================= *)
(** ** A concrete platform and sample data, to run the handlers on *)

Module Sample.

Definition platform_with (parse : string -> option QRData) : Platform :=
  mkPlatform parse
             (fun x => x)
             show_Z
             show_Z
             (fun size d => show_Z size ++ ":" ++ d)
             show_Z.

Definition env0 : Env := mkEnv "k3y" None None None None.

Definition asha : students.row :=
  students.mk 1 10 "CS001" "Asha" None None None None (Some 20).

(** The rows the requests below leave in leave_applications: two one-day
    leaves on consecutive days, approved by the deputy warden, no QR code
    issued yet; a three-day and a twenty-day leave, both pending. *)
Definition leaveA : leave_applications.row :=
  leave_applications.mk 1 1 "REGULAR" 20000 20000 "home" None None
    APPROVED_DW (Some 1) None None None (Some 1727000000000) None
    false None None.

Definition leaveB : leave_applications.row :=
  leave_applications.mk 2 1 "REGULAR" 20001 20001 "exam" None None
    APPROVED_DW (Some 1) None None None (Some 1727000000000) None
    false None None.

Definition leaveC : leave_applications.row :=
  leave_applications.mk 3 1 "REGULAR" 20010 20012 "trip" None None
    PENDING None None None None None None false None None.

Definition leaveD : leave_applications.row :=
  leave_applications.mk 4 1 "REGULAR" 20100 20119 "term break" None None
    PENDING None None None None None None false None None.

Definition ext1 : emergency_extensions.row :=
  emergency_extensions.mk 1 1 1 20003 (Some "flood") EXT_PENDING
    None None None.

(** A fresh installation: the accounts, no leave, no gate log. *)
Definition db_start : DB :=
  mkDB [users.mk 1 "DEPUTY_WARDEN" true; users.mk 2 "PRINCIPAL" true;
        users.mk 3 "WATCHMAN" true; users.mk 10 "STUDENT" true;
        users.mk 20 "PARENT" true]
       [asha]
       [staff.mk 1 1; staff.mk 2 2; staff.mk 3 3]
       [parents.mk 1 20]
       [] [] [] [].

Definition objA : QRData := qrObject (platform_with (fun _ => None)) env0 leaveA asha.
Definition objB : QRData := qrObject (platform_with (fun _ => None)) env0 leaveB asha.

(** [objA] with the last character of [fromDate] changed. *)
Definition objA_tampered : QRData := with_fromDate objA "1728000000001".

Definition tokenA : string := stringify_qr objA.
Definition tokenA_tampered : string := stringify_qr objA_tampered.

(** The parser of the sample platform reads back the tokens above and
    rejects every other text. *)
Definition parse (t : string) : option QRData :=
  find (fun q => (stringify_qr q =? t)%string)
       [objA; objB; objA_tampered].

Definition platform : Platform := platform_with parse.

Definition approve : DecideBody := mkDecideBody (Some "approve") None.

(** Asha applies on day 19990. *)
Definition booking (from_ to_ : Z) (why : string) : Request :=
  ReqApplyLeave env0 (midnight 19990) 10
    (mkApplyBody (Some from_) (Some to_) (Some why) None None None).

(** Asha books the four leaves, the deputy warden approves the first two,
    her parent asks to extend the first one to day 20003. *)
Definition db0 : DB :=
  fold_left (handle platform)
    [booking 20000 20000 "home"; booking 20001 20001 "exam";
     booking 20010 20012 "trip"; booking 20100 20119 "term break";
     ReqProcessByDW env0 1727000000000 1 1 approve;
     ReqProcessByDW env0 1727000000000 1 2 approve;
     ReqExtension 20 (mkExtensionBody 1 20003 (Some "flood"))]
    db_start.

(** Both QR codes issued. *)
Definition db_issued : DB :=
  handle platform
    (handle platform db0 (ReqLeaveQRCode env0 10 1))
    (ReqLeaveQRCode env0 10 2).

(** 23:00 on day 20000: leave A still runs, leave B is already valid. *)
Definition evening : Z := midnight 20000 + 23 * 3600 * 1000.

Definition clock_at (t : Z) : ScanClock := mkScanClock t t t t.

Definition scan (t : Z) (token action_ : string) : Request :=
  ReqScan env0 (clock_at t) 3 (mkScanBody (Some token) (Some action_) None).

(** Asha has left on leave A. *)
Definition db_exited : DB := handle platform db_issued (scan evening tokenA "EXIT").


(** The instant after 23:59:59 of day 20000, the last day of leave A. *)
Definition after_leaveA : Z := midnight 20001.

Definition scan_body (token action_ : string) : ScanBody :=
  mkScanBody (Some token) (Some action_) None.


End Sample.

(* ================================================================= *)
(** ** Further code of helpers.js and leaveController.js *)

(** [/\D/]: a code unit that is not a decimal digit. *)
Definition is_digit (c : ascii) : bool :=
  ((48 <=? N_of_ascii c) && (N_of_ascii c <=? 57))%N.

(** [phone.replace(/\D/g, '')] *)
Fixpoint remove_non_digits (s : string) : string :=
  match s with
  | EmptyString => EmptyString
  | String c r =>
      if is_digit c then String c (remove_non_digits r)
      else remove_non_digits r
  end.

(** helpers.js [sanitizePhoneNumber]. *)
Definition sanitizePhoneNumber (phone : string) : string :=
  let cleaned := remove_non_digits phone in
  let cleaned :=
    if negb (String.prefix "91" cleaned)
       && (String.length cleaned =? 10)%nat
    then "91" ++ cleaned else cleaned in
  if negb (String.prefix "+" cleaned) then "+" ++ cleaned else cleaned.

Fixpoint all_digits (s : string) : bool :=
  match s with
  | EmptyString => true
  | String c r => is_digit c && all_digits r
  end.

Module otp_verifications.
Record row := mk {
  id : Z;
  user_id : Z;
  phone_number : string;
  otp_code : string;
  purpose : string;
  is_verified : bool;
  expires_at : Z;
  created_at : Z                 (* DEFAULT CURRENT_TIMESTAMP *)
}.
End otp_verifications.

Fixpoint zeros (n : nat) : string :=
  match n with
  | O => EmptyString
  | S k => String "0" (zeros k)
  end.

(** [s.padStart(n, '0')] *)
Definition padStart0 (s : string) (n : Z) : string :=
  zeros (Z.to_nat n - String.length s) ++ s.

(** helpers.js [generateOTP]; [draw] is what
    [crypto.randomInt(100000, 999999)] returns. *)
Definition generateOTP (otp_length : option Z) (draw : Z) : string :=
  padStart0 (show_Z draw) (or_default otp_length 6).

(** helpers.js [storeOTP]; [js_now] is [Date.now()], [stamp] the
    CURRENT_TIMESTAMP of the insert, [to_timestamp] the value the
    TIMESTAMP column [expires_at] takes for a JavaScript Date. The two
    environment variables are OTP_LENGTH and OTP_EXPIRY_MINUTES. The
    columns are [phone_number VARCHAR(15)], [otp_code VARCHAR(6)] and
    [purpose VARCHAR(50)]; what the server does with a longer text depends
    on its SQL mode and is not modelled: the result is [None] then. *)
Definition storeOTP (otp_length otp_expiry_minutes : option Z)
    (to_timestamp : Z -> Z)
    (tbl : list otp_verifications.row) (js_now stamp draw : Z)
    (userId : Z) (phoneNumber purpose_ : string)
  : option (string * list otp_verifications.row) :=
  let otp := generateOTP otp_length draw in
  let expiryMinutes := or_default otp_expiry_minutes 10 in
  let expiresAt := js_now + expiryMinutes * 60 * 1000 in
  if ((String.length phoneNumber <=? 15) && (String.length otp <=? 6)
      && (String.length purpose_ <=? 50))%nat
  then
    Some (otp,
          (tbl ++ [otp_verifications.mk (next_id otp_verifications.id tbl)
                     userId phoneNumber otp purpose_ false
                     (to_timestamp expiresAt) stamp])%list)
  else None.

(** The WHERE clause of [verifyOTP]; [now_] is NOW(). *)
Definition otp_matches (now_ : Z) (phoneNumber otp purpose_ : string)
    (r : otp_verifications.row) : bool :=
  (otp_verifications.phone_number r =? phoneNumber)%string
  && (otp_verifications.otp_code r =? otp)%string
  && (otp_verifications.purpose r =? purpose_)%string
  && negb (otp_verifications.is_verified r)
  && (otp_verifications.expires_at r >? now_).

(** [ORDER BY created_at DESC LIMIT 1], the later insertion among equal
    timestamps. *)
Definition latest_otp (l : list otp_verifications.row)
  : option otp_verifications.row :=
  fold_left
    (fun acc r =>
       match acc with
       | None => Some r
       | Some a =>
           if otp_verifications.created_at a
              <=? otp_verifications.created_at r
           then Some r else Some a
       end) l None.

(** [UPDATE otp_verifications SET is_verified = TRUE WHERE id = ?] *)
Definition mark_verified (rid : Z) (r : otp_verifications.row)
  : otp_verifications.row :=
  if otp_verifications.id r =? rid then
    otp_verifications.mk (otp_verifications.id r)
      (otp_verifications.user_id r) (otp_verifications.phone_number r)
      (otp_verifications.otp_code r) (otp_verifications.purpose r)
      true (otp_verifications.expires_at r)
      (otp_verifications.created_at r)
  else r.

(** What [verifyOTP] returns: [{ success, message }] or
    [{ success, userId }]. *)
Inductive OTPResult :=
| OTPInvalid (msg : string)
| OTPVerified (userId : Z).

(** helpers.js [verifyOTP]. *)
Definition verifyOTP (tbl : list otp_verifications.row) (now_ : Z)
    (phoneNumber otp purpose_ : string)
  : OTPResult * list otp_verifications.row :=
  match latest_otp (filter (otp_matches now_ phoneNumber otp purpose_) tbl)
  with
  | None => (OTPInvalid "Invalid or expired OTP", tbl)
  | Some result =>
      (OTPVerified (otp_verifications.user_id result),
       map (mark_verified (otp_verifications.id result)) tbl)
  end.

(** One row of the deputy warden's queue: [la.*], the student's columns
    and [DATEDIFF(la.to_date, la.from_date) + 1 as duration]. *)
Record PendingRow := mkPendingRow {
  pr_leave : leave_applications.row;
  pr_student : students.row;
  pr_duration : Z
}.

(** One row of the principal's queue; [pl_dw] is the LEFT JOIN on
    [staff dw ON la.approved_by_dw = dw.id]. *)
Record PrincipalRow := mkPrincipalRow {
  pl_leave : leave_applications.row;
  pl_student : students.row;
  pl_dw : option staff.row;
  pl_duration : Z
}.

(** leaveController.js [getPendingLeaves]. The rows come in the order of
    the table; the query sorts them by [la.created_at], a column the
    handlers never set and the properties below do not rest on. *)
Definition getPendingLeaves (env : Env) (db : DB)
  : Response (list PendingRow) :=
  let maxDays := or_default (MAX_REGULAR_LEAVE_DAYS env) 15 in
  mkResponse 200 true ""
    (Some (select_rows
             (fun la =>
                match student_by_id db (leave_applications.student_id la) with
                | Some s =>
                    if LeaveStatus_eqb (leave_applications.status la) PENDING
                       && (sql_duration la <=? maxDays)
                    then Some (mkPendingRow la s (sql_duration la))
                    else None
                | None => None
                end)
             (t_leave_applications db))).

(** leaveController.js [getLeavesForPrincipal]. *)
Definition getLeavesForPrincipal (env : Env) (db : DB)
  : Response (list PrincipalRow) :=
  let maxDays := or_default (MAX_REGULAR_LEAVE_DAYS env) 15 in
  mkResponse 200 true ""
    (Some (select_rows
             (fun la =>
                match student_by_id db (leave_applications.student_id la) with
                | Some s =>
                    if LeaveStatus_eqb (leave_applications.status la) PENDING
                       && (sql_duration la >? maxDays)
                    then Some (mkPrincipalRow la s
                                 (match leave_applications.approved_by_dw la
                                  with
                                  | Some k =>
                                      find (fun w => staff.id w =? k)
                                           (t_staff db)
                                  | None => None
                                  end)
                                 (sql_duration la))
                    else None
                | None => None
                end)
             (t_leave_applications db))).

(* ================================================================= *)
(** ** Predicates used to state what the handlers keep *)

(** The moves of the status of a leave application. *)
Definition status_step (s s' : LeaveStatus) : Prop :=
  s' = s
  \/ (s = PENDING
      /\ (s' = APPROVED_DW \/ s' = APPROVED_PRINCIPAL \/ s' = REJECTED)).


(** The two shapes of a gate_logs row: a manual one, or one of a scan. *)
Definition log_row_shape (g : gate_logs.row) : Prop :=
  (gate_logs.leave_application_id g = None
   /\ gate_logs.qr_code_data g = None
   /\ gate_logs.validation_status g = MANUAL)
  \/ (gate_logs.leave_application_id g <> None
      /\ gate_logs.qr_code_data g <> None
      /\ ((gate_logs.action_type g = "EXIT"
           /\ gate_logs.validation_status g = VALID)
          \/ (gate_logs.action_type g = "ENTRY"
              /\ (gate_logs.validation_status g = VALID
                  \/ gate_logs.validation_status g = INVALID
                  \/ gate_logs.validation_status g = EXPIRED)))).


(** Newest exit first. *)
Definition exit_time_desc (a b : OutsideRow) : Prop :=
  exit_time b <= exit_time a.

(** Further sample data. *)
Module Cases.

(** Asha is back: the ENTRY with the QR code of leave A was allowed. *)
Definition db_returned : DB :=
  handle Sample.platform Sample.db_exited
    (Sample.scan (Sample.evening + 60000) Sample.tokenA "ENTRY").

(** A one-time code for the parent's phone, stored at time 1000. *)
Definition otp_table : list otp_verifications.row :=
  match storeOTP None None (fun t => t) [] 1000 1000 123456 20
                 "+919876543210" "LOGIN" with
  | Some (_, tbl) => tbl
  | None => []
  end.


End Cases.

(* ================================================================= *)
(** * Properties *)

(* ----------------------------------------------------------------- *)
(** ** Strings: [escape] and the serialisation of the binding fields *)

Lemma length_append (s t : string) :
  String.length (s ++ t) = (String.length s + String.length t)%nat.
Proof. induction s as [|c s IH]; simpl; [reflexivity | now rewrite IH]. Qed.

Lemma append_inj_l (p x y : string) : p ++ x = p ++ y -> x = y.
Proof.
  induction p as [|c p IH]; simpl; intros H; [exact H|].
  injection H as H. now apply IH.
Qed.

Lemma append_inj_r (s x y : string) : x ++ s = y ++ s -> x = y.
Proof.
  revert y. induction x as [|a x IH]; intros [|b y] H; simpl in H.
  - reflexivity.
  - apply (f_equal String.length) in H. simpl in H.
    rewrite length_append in H. lia.
  - apply (f_equal String.length) in H. simpl in H.
    rewrite length_append in H. lia.
  - injection H as Hc Hr. subst b. f_equal. now apply IH.
Qed.

Lemma append_assoc (a b c : string) : (a ++ b) ++ c = a ++ (b ++ c).
Proof. induction a as [|x a IH]; simpl; [reflexivity | now rewrite IH]. Qed.

Lemma unescape_escape_char (c : ascii) (r : string) :
  unescape_head (escape_char c ++ r) = Some (c, r).
Proof.
  destruct c as [b0 b1 b2 b3 b4 b5 b6 b7].
  destruct b0, b1, b2, b3, b4, b5, b6, b7; reflexivity.
Qed.

Lemma escape_inj (s t : string) : escape s = escape t -> s = t.
Proof.
  revert t. induction s as [|a s IH]; intros [|b t] H; simpl in H.
  - reflexivity.
  - apply (f_equal unescape_head) in H.
    rewrite unescape_escape_char in H. discriminate.
  - apply (f_equal unescape_head) in H.
    rewrite unescape_escape_char in H. discriminate.
  - apply (f_equal unescape_head) in H.
    rewrite !unescape_escape_char in H.
    injection H as Ha Hs. subst b. f_equal. now apply IH.
Qed.

Lemma json_string_inj (s t : string) : json_string s = json_string t -> s = t.
Proof.
  unfold json_string. intros H. injection H as H.
  apply append_inj_r in H. now apply escape_inj.
Qed.

(** The serialisation that is hashed determines [fromDate]. *)
Lemma stringify_binding_inj (lid sid : Z) (f g : string) :
  stringify_binding lid sid f = stringify_binding lid sid g -> f = g.
Proof.
  unfold stringify_binding. intros H.
  repeat (apply append_inj_l in H).
  apply append_inj_r in H. now apply json_string_inj.
Qed.

Lemma flip_one_neq (s t : string) : flip_one s t -> s <> t.
Proof.
  induction 1 as [a b s Hab | a s s' _ IH]; intros E; injection E; auto.
Qed.

Section Properties.

Variable P : Platform.

(* ----------------------------------------------------------------- *)
(** ** Credential codec *)

(** A token that [generateQRCodeData] issued passes the hash check. *)
Lemma issued_hash_matches (env : Env) (la : leave_applications.row)
    (s : students.row) :
  let q := qrObject P env la s in
  hash q = generateHash P env (leaveId q) (studentId q) (fromDate q).
Proof. reflexivity. Qed.

(** C5. Take a token issued for a leave, decode it, change one character
    of its [fromDate] field and encode it again, the embedded hash left as
    it was: [validateQRCode] recomputes the hash over (leaveId, studentId,
    fromDate), finds it different from the embedded one and answers
    'QR code tampered or invalid'. The one assumption is that the digest
    does not collide on the two texts that are hashed, the issued one and
    the changed one. *)
Theorem tampered_fromDate_rejected (env : Env) (db : DB) (now_ : Z)
    (la : leave_applications.row) (s : students.row)
    (from' token' : string) :
  let q := qrObject P env la s in
  let issued := stringify_binding (leaveId q) (studentId q) (fromDate q)
                ++ JWT_SECRET env in
  let changed := stringify_binding (leaveId q) (studentId q) from'
                 ++ JWT_SECRET env in
  (sha256_hex P issued = sha256_hex P changed -> issued = changed) ->
  flip_one (fromDate q) from' ->
  JSON_parse P token' = Some (with_fromDate q from') ->
  validateQRCode P env db now_ token'
  = mkValidation false None "QR code tampered or invalid".
Proof.
  intros q issued changed Hno Hflip Hparse. subst q issued changed.
  unfold validateQRCode. rewrite Hparse.
  cbn [hash leaveId studentId fromDate with_fromDate qrObject] in *.
  destruct (String.eqb _ _) eqn:E; [|reflexivity].
  exfalso. apply String.eqb_eq in E. unfold generateHash in E.
  apply Hno in E. apply append_inj_r in E.
  apply stringify_binding_inj in E.
  apply flip_one_neq in Hflip. apply Hflip. exact E.
Qed.

(* ----------------------------------------------------------------- *)
(** ** The scan decision *)

Ltac break_match :=
  match goal with
  | |- context [match ?x with _ => _ end] =>
      lazymatch x with
      | context [match _ with _ => _ end] => fail
      | _ => destruct x eqn:?
      end
  end.

(** What a successful [validateQRCode] has checked. *)
Lemma validate_valid_inv (env : Env) (db : DB) (now_ : Z) (qr : string) :
  valid (validateQRCode P env db now_ qr) = true ->
  exists q la,
    JSON_parse P qr = Some q
    /\ hash q = generateHash P env (leaveId q) (studentId q) (fromDate q)
    /\ leave_of db (leaveId q) (studentId q) = Some la
    /\ is_approved (leave_applications.status la) = true
    /\ now_ <= end_of_leave la
    /\ validateQRCode P env db now_ qr
       = mkValidation true (Some la) "Valid QR code".
Proof.
  unfold validateQRCode.
  destruct (JSON_parse P qr) as [q|]; [|discriminate].
  destruct (String.eqb _ _) eqn:Eh; [|discriminate]. cbn [negb].
  destruct (leave_of db _ _) as [la|] eqn:El; [|discriminate].
  destruct (is_approved _) eqn:Ea; [|discriminate]. cbn [negb].
  destruct (_ <? _); [discriminate|].
  destruct (_ >? _) eqn:Ee; [discriminate|].
  intros _. exists q, la. apply String.eqb_eq in Eh.
  rewrite Z.gtb_ltb in Ee. apply Z.ltb_ge in Ee. auto 10.
Qed.


(** [scanDecide] decides in one of the four ways of [scan_outcome]. *)
Lemma scanDecide_outcome (env : Env) (db : DB) (clk : ScanClock) (user : Z)
    (qr action_ : string) (loc : option string) (v : Validation)
    (e : LogEntry) :
  scanDecide P env db clk user qr action_ loc = Some (v, e) ->
  scan_outcome P env db clk user qr action_ loc v e.
Proof.
  unfold scanDecide. cbv zeta.
  destruct (valid (validateQRCode P env db (now clk) qr)) eqn:Ev.
  2:{ intros H; injection H as Hv' He'; subst v e. now apply outcome_rejected. }
  destruct (validate_valid_inv _ _ _ _ Ev) as (q & la & Hq & _ & _ & _ & _ & Hv).
  rewrite Hq, Hv. cbn.
  destruct (action_ =? "ENTRY")%string eqn:Ea; cbn.
  2:{ intros H; injection H as Hv' He'; subst v e.
      apply (outcome_passed _ _ _ _ _ _ _ _ q la); auto.
      left. now apply String.eqb_neq. }
  apply String.eqb_eq in Ea.
  destruct (lastLog db (studentId q) (leaveId q)) as [g|] eqn:El; cbn.
  - destruct (gate_logs.action_type g =? "EXIT")%string eqn:Eg; cbn.
    + apply String.eqb_eq in Eg.
      destruct (today clk >? end_of_leave la) eqn:Et;
        intros H; injection H as Hv' He'; subst v e.
      * apply (outcome_expired _ _ _ _ _ _ _ _ q la g); auto.
        rewrite Z.gtb_ltb in Et. apply Z.ltb_lt in Et. lia.
      * apply (outcome_passed _ _ _ _ _ _ _ _ q la); auto.
        right. exists g. rewrite Z.gtb_ltb in Et. apply Z.ltb_ge in Et. auto.
    + intros H; injection H as Hv' He'; subst v e.
      apply (outcome_no_exit _ _ _ _ _ _ _ _ q la); auto.
      intros g' Hg'. rewrite El in Hg'. injection Hg' as <-.
      now apply String.eqb_neq.
  - intros H; injection H as Hv' He'; subst v e.
    apply (outcome_no_exit _ _ _ _ _ _ _ _ q la); auto.
    intros g' Hg'. rewrite El in Hg'. discriminate.
Qed.

(** In every outcome the final [validation] is valid exactly when the
    logged status is VALID, and the entry records the request. *)
Lemma outcome_facts (env : Env) (db : DB) (clk : ScanClock) (user : Z)
    (qr action_ : string) (loc : option string) (v : Validation)
    (e : LogEntry) :
  scan_outcome P env db clk user qr action_ loc v e ->
  (valid v = true <-> validationStatus e = VALID)
  /\ validationMessage e = vmessage v
  /\ log_actionType e = action_ /\ scannedBy e = user
  /\ qrCodeData e = qr /\ log_location e = or_main_gate loc
  /\ (valid v = true -> leave v <> None).
Proof.
  intros H. inversion H; subst; cbn; repeat split; congruence.
Qed.

(** What a scan does to the database and what it answers: either nothing
    is written and the answer carries no data (400 or 500), or the decided
    entry is appended as one row and the answer reports the decision. *)
Lemma scan_effect (env : Env) (db : DB) (clk : ScanClock) (user : Z)
    (body : ScanBody) :
  (snd (scanQRCode P env db clk user body) = db
   /\ data (fst (scanQRCode P env db clk user body)) = None)
  \/ exists qr action_ v e sid,
       qrData body = Some qr /\ actionType body = Some action_
       /\ scanDecide P env db clk user qr action_ (location body)
          = Some (v, e)
       /\ scan_outcome P env db clk user qr action_ (location body) v e
       /\ log_studentId e = Some sid
       /\ snd (scanQRCode P env db clk user body)
          = set_gate_logs db
              (t_gate_logs db ++
               [row_of_entry (next_id gate_logs.id (t_gate_logs db)) sid
                             (db_now clk) e])%list
       /\ http (fst (scanQRCode P env db clk user body)) = 200
       /\ success (fst (scanQRCode P env db clk user body)) = valid v
       /\ message (fst (scanQRCode P env db clk user body)) = vmessage v
       /\ exists d,
            data (fst (scanQRCode P env db clk user body)) = Some d
            /\ logId d = next_id gate_logs.id (t_gate_logs db)
            /\ sd_actionType d = action_
            /\ sd_validationStatus d = validationStatus e
            /\ allowed d = valid v.
Proof.
  unfold scanQRCode.
  destruct (negb (truthy (qrData body)) || negb (truthy (actionType body)));
    [left; split; reflexivity|].
  destruct (qrData body) as [qr|]; [|left; split; reflexivity].
  destruct (actionType body) as [action_|]; [|left; split; reflexivity].
  destruct (negb _); [left; split; reflexivity|].
  destruct (scanDecide P env db clk user qr action_ (location body))
    as [[v e]|] eqn:Ed; [|left; split; reflexivity].
  pose proof (scanDecide_outcome _ _ _ _ _ _ _ _ _ Ed) as Ho.
  destruct (outcome_facts _ _ _ _ _ _ _ _ _ Ho) as (_ & _ & _ & _ & _ & _ & Hl).
  unfold insert_gate_log.
  destruct (log_studentId e) as [sid|] eqn:Es; [|left; split; reflexivity].
  right. exists qr, action_, v, e, sid.
  destruct (valid v) eqn:Ev.
  - destruct (leave v) as [la|]; [|now destruct Hl].
    cbn. repeat split; auto. eexists; repeat split; reflexivity.
  - cbn. repeat split; auto. eexists; repeat split; reflexivity.
Qed.

(* ----------------------------------------------------------------- *)
(** ** Invariant of the gate log *)

Ltac break_all := repeat (break_match; cbn [fst snd fail]); try reflexivity.

Lemma applyLeave_keeps_log (env : Env) (db : DB) (today0 user : Z)
    (body : ApplyBody) :
  t_gate_logs (snd (applyLeave P env db today0 user body)) = t_gate_logs db.
Proof. unfold applyLeave. break_all. Qed.

Lemma getLeaveQRCode_keeps_log (env : Env) (db : DB) (user lid : Z) :
  t_gate_logs (snd (getLeaveQRCode P env db user lid)) = t_gate_logs db.
Proof.
  unfold getLeaveQRCode. break_all;
    repeat match goal with
           | H : (_, _) = (_, _) |- _ => injection H as ? ? ?; subst
           end; reflexivity.
Qed.

Lemma processLeaveByDW_keeps_log (env : Env) (db : DB) (at_ user lid : Z)
    (body : DecideBody) :
  t_gate_logs (snd (processLeaveByDW env db at_ user lid body))
  = t_gate_logs db.
Proof. unfold processLeaveByDW. break_all. Qed.

Lemma processLeaveByPrincipal_keeps_log (db : DB) (at_ user lid : Z)
    (body : DecideBody) :
  t_gate_logs (snd (processLeaveByPrincipal db at_ user lid body))
  = t_gate_logs db.
Proof. unfold processLeaveByPrincipal. break_all. Qed.

Lemma requestEmergencyExtension_keeps_log (db : DB) (user : Z)
    (body : ExtensionBody) :
  t_gate_logs (snd (requestEmergencyExtension db user body)) = t_gate_logs db.
Proof. unfold requestEmergencyExtension. break_all. Qed.

Lemma processEmergencyExtension_keeps_log (db : DB) (at_ user eid : Z)
    (body : DecideBody) :
  t_gate_logs (snd (processEmergencyExtension db at_ user eid body))
  = t_gate_logs db.
Proof. unfold processEmergencyExtension. break_all. Qed.







(* ----------------------------------------------------------------- *)
(** ** Gate scans *)





(** A scan whose credential [validateQRCode] rejects (malformed, tampered,
    leave not found, not approved, not yet valid, expired) builds a log
    entry without a student; gate_logs refuses it, the handler answers 500
    and nothing is logged. *)
Lemma rejected_scan_not_logged (env : Env) (db : DB) (clk : ScanClock)
    (user : Z) (qr action_ : string) (loc : option string) :
  qr <> "" -> action_ = "EXIT" \/ action_ = "ENTRY" ->
  valid (validateQRCode P env db (now clk) qr) = false ->
  scanDecide P env db clk user qr action_ loc
  = Some (validateQRCode P env db (now clk) qr,
          mkLogEntry None None action_ user qr INVALID
                     (vmessage (validateQRCode P env db (now clk) qr))
                     (or_main_gate loc))
  /\ scanQRCode P env db clk user (mkScanBody (Some qr) (Some action_) loc)
     = (fail 500 "QR code scanning failed", db).
Proof.
  intros Hqr Hact Hv.
  assert (Hd : scanDecide P env db clk user qr action_ loc
               = Some (validateQRCode P env db (now clk) qr,
                       mkLogEntry None None action_ user qr INVALID
                         (vmessage (validateQRCode P env db (now clk) qr))
                         (or_main_gate loc))).
  { unfold scanDecide. cbv zeta. rewrite Hv. reflexivity. }
  split; [exact Hd|].
  unfold scanQRCode. cbn [qrData actionType location].
  assert (Hq : truthy (Some qr) = true) by (destruct qr; [congruence|reflexivity]).
  assert (Ha : truthy (Some action_) = true) by (destruct Hact; subst; reflexivity).
  rewrite Hq, Ha. cbn [negb orb].
  assert (Hm : ((action_ =? "EXIT")%string || (action_ =? "ENTRY")%string)
               = true) by (destruct Hact; subst; reflexivity).
  rewrite Hm. cbn [negb]. rewrite Hd. reflexivity.
Qed.

(** The status EXPIRED is written only when the clock passes the end of
    the leave between the reading of [validateQRCode] and the reading of
    the re-entry check. *)
Lemma expired_needs_clock_crossing (env : Env) (db : DB) (clk : ScanClock)
    (user : Z) (qr action_ : string) (loc : option string) (v : Validation)
    (e : LogEntry) :
  scan_outcome P env db clk user qr action_ loc v e ->
  validationStatus e = EXPIRED ->
  exists la, leave v = Some la
             /\ now clk <= end_of_leave la /\ end_of_leave la < today clk.
Proof.
  intros H. inversion H; subst; cbn; try discriminate.
  intros _. exists la. split; [reflexivity|].
  assert (Hv : valid (validateQRCode P env db (now clk) qr) = true).
  { match goal with E : validateQRCode _ _ _ _ _ = _ |- _ => now rewrite E end. }
  destruct (validate_valid_inv _ _ _ _ Hv) as (q' & la' & _ & _ & _ & _ & Hle & Hv').
  assert (la' = la) by congruence. subst. lia.
Qed.


(** Every row a scan appends to gate_logs names the student and the leave
    application of a credential that [validateQRCode] accepted. *)
Lemma appended_row_is_attributed (env : Env) (db : DB) (clk : ScanClock)
    (user : Z) (body : ScanBody) (g : gate_logs.row) :
  t_gate_logs (snd (scanQRCode P env db clk user body))
  = (t_gate_logs db ++ [g])%list ->
  exists qr q,
    qrData body = Some qr
    /\ valid (validateQRCode P env db (now clk) qr) = true
    /\ JSON_parse P qr = Some q
    /\ gate_logs.student_id g = studentId q
    /\ gate_logs.leave_application_id g = Some (leaveId q).
Proof.
  intros Hg.
  destruct (scan_effect env db clk user body)
    as [[Hdb _]|(qr & a & v & e & sid & Hq & _ & _ & Ho & Hs & Hdb & _)].
  - rewrite Hdb in Hg. exfalso.
    apply (f_equal (@List.length _)) in Hg.
    rewrite length_app in Hg. cbn in Hg. lia.
  - rewrite Hdb in Hg. cbn [t_gate_logs set_gate_logs] in Hg.
    apply app_inv_head in Hg. injection Hg as <-.
    exists qr.
    inversion Ho; subst; cbn in Hs; try discriminate;
      injection Hs as <-; exists q; cbn;
      (split; [assumption|]);
      (split;
       [match goal with
        | E : validateQRCode _ _ _ _ _ = _ |- _ => now rewrite E
        end|auto]).
Qed.

(* ----------------------------------------------------------------- *)
(** ** Students outside *)

Lemma In_select_rows {A B : Type} (f : A -> option B) (l : list A) (y : B) :
  In y (select_rows f l) <-> exists x, In x l /\ f x = Some y.
Proof.
  induction l as [|a l IH]; cbn.
  - split; [intros []|intros (x & [] & _)].
  - destruct (f a) as [b|] eqn:E; cbn; rewrite IH; split.
    + intros [<-|(x & Hin & Hx)]; eauto.
    + intros (x & [<-|Hin] & Hx); [left; congruence|right; eauto].
    + intros (x & Hin & Hx); eauto.
    + intros (x & [<-|Hin] & Hx); [congruence|eauto].
Qed.

Lemma In_insert_desc (r x : OutsideRow) (l : list OutsideRow) :
  In x (insert_desc r l) <-> x = r \/ In x l.
Proof.
  induction l as [|a l IH]; cbn.
  - intuition.
  - destruct (_ <? _); cbn; [intuition|]. rewrite IH. intuition.
Qed.

Lemma In_order_by (x : OutsideRow) (l : list OutsideRow) :
  In x (order_by_exit_time_desc l) <-> In x l.
Proof.
  unfold order_by_exit_time_desc. induction l as [|a l IH]; cbn.
  - reflexivity.
  - rewrite In_insert_desc, IH. intuition.
Qed.



(* ----------------------------------------------------------------- *)
(** ** Deciding a leave application *)

Lemma action_ok_truthy (a : option string) :
  action_ok a = true -> truthy a = true.
Proof.
  destruct a as [[|c s]|]; cbn; try discriminate; reflexivity.
Qed.




(* ----------------------------------------------------------------- *)
(** ** Applying for leave: the overlap test *)



(* ----------------------------------------------------------------- *)
(** ** Issuing the QR code *)

Lemma find_map_same {A : Type} (p : A -> bool) (f : A -> A) (l : list A) :
  (forall x, p (f x) = p x) ->
  find p (map f l) = option_map f (find p l).
Proof.
  intros Hp. induction l as [|a l IH]; cbn; [reflexivity|].
  rewrite Hp. destruct (p a); [reflexivity|exact IH].
Qed.

Lemma student_of_user_set_leave (db : DB)
    (l : list leave_applications.row) (user : Z) :
  student_of_user (set_leave_applications db l) user
  = student_of_user db user.
Proof. reflexivity. Qed.

Lemma own_leave_set_qr (db : DB) (lid sid : Z) (qr : string) (vf : Z) :
  own_leave (set_leave_applications db
               (map (set_qr lid qr vf) (t_leave_applications db))) lid sid
  = option_map (set_qr lid qr vf) (own_leave db lid sid).
Proof.
  unfold own_leave. cbn [t_leave_applications set_leave_applications].
  apply find_map_same. intros la. unfold set_qr.
  destruct (leave_applications.id la =? lid) eqn:E; cbn; now rewrite E.
Qed.

(** The first request for the QR code of an approved leave of one's own is
    answered with a QR code. *)
Lemma first_issue_succeeds (env : Env) (db : DB) (user lid : Z)
    (s : students.row) (la : leave_applications.row) :
  student_of_user db user = Some s ->
  own_leave db lid (students.id s) = Some la ->
  is_approved (leave_applications.status la) = true ->
  leave_applications.qr_code_generated la = false ->
  http (fst (getLeaveQRCode P env db user lid)) = 200
  /\ exists d, data (fst (getLeaveQRCode P env db user lid)) = Some d.
Proof.
  intros Hs Hl Ha Hg. unfold getLeaveQRCode. rewrite Hs, Hl, Ha, Hg. cbn.
  split; [reflexivity|]. eexists. reflexivity.
Qed.

(** C7. When [getLeaveQRCode] answers with a QR code, a second call, under
    any environment, answers with the same token and the same validFrom
    and writes nothing: the token and validFrom are stored with the leave
    application at the first issue, validFrom being the leave's from_date
    minus QR_CODE_VALIDITY_HOURS (2 by default) hours, and are read back
    afterwards. *)
Theorem qr_issue_idempotent (env env' : Env) (db : DB) (user lid : Z)
    (d1 : QRResponse) :
  data (fst (getLeaveQRCode P env db user lid)) = Some d1 ->
  let db1 := snd (getLeaveQRCode P env db user lid) in
  exists s la1 token,
    student_of_user db user = Some s
    /\ own_leave db1 lid (students.id s) = Some la1
    /\ leave_applications.qr_code_generated la1 = true
    /\ leave_applications.qr_code_data la1 = Some token
    /\ leave_applications.qr_code_expires_at la1 = qr_validFrom d1
    /\ qrCode d1 = toDataURL P (or_default (QR_CODE_SIZE env) 300) token
    /\ getLeaveQRCode P env' db1 user lid
       = (mkResponse 200 true ""
            (Some (mkQRResponse
                     (toDataURL P (or_default (QR_CODE_SIZE env') 300) token)
                     (qr_validFrom d1) (qr_fromDate d1) (qr_toDate d1)
                     (qr_status d1))),
          db1)
    /\ (forall la, own_leave db lid (students.id s) = Some la ->
                   leave_applications.qr_code_generated la = false ->
                   token = generateQRCodeData P env la s
                   /\ qr_validFrom d1
                      = Some (midnight (leave_applications.from_date la)
                              - or_default (QR_CODE_VALIDITY_HOURS env) 2
                                * 60 * 60 * 1000)).
Proof.
  intros Hd db1. subst db1.
  remember (getLeaveQRCode P env db user lid) as r1 eqn:Hr1.
  unfold getLeaveQRCode in Hr1.
  destruct (student_of_user db user) as [s|] eqn:Es;
    [|subst r1; discriminate].
  destruct (own_leave db lid (students.id s)) as [la|] eqn:El;
    [|subst r1; discriminate].
  destruct (is_approved (leave_applications.status la)) eqn:Ea;
    [|subst r1; discriminate].
  cbn [negb] in Hr1.
  assert (Hid : leave_applications.id la = lid).
  { unfold own_leave in El. apply find_some in El. destruct El as [_ Hb].
    apply andb_prop in Hb. destruct Hb as [Hb _]. now apply Z.eqb_eq in Hb. }
  destruct (leave_applications.qr_code_generated la) eqn:Eg;
    cbn [negb] in Hr1.
  - (* already issued: the stored token is returned *)
    destruct (leave_applications.qr_code_data la) as [token|] eqn:Eq;
      [|subst r1; discriminate].
    subst r1. cbn in Hd. injection Hd as <-. cbn.
    exists s, la, token. repeat split; auto.
    + unfold getLeaveQRCode. rewrite Es, El, Ea, Eg, Eq. reflexivity.
    + congruence.
    + congruence.
  - (* first issue *)
    subst r1. cbn in Hd. injection Hd as <-.
    cbn [qr_validFrom qrCode qr_fromDate qr_toDate qr_status snd fst].
    set (token := generateQRCodeData P env la s).
    set (vf := midnight (leave_applications.from_date la)
               - or_default (QR_CODE_VALIDITY_HOURS env) 2 * 60 * 60 * 1000).
    exists s, (set_qr lid token vf la), token.
    assert (Hset : set_qr lid token vf la
                   = leave_applications.mk
                       (leave_applications.id la)
                       (leave_applications.student_id la)
                       (leave_applications.leave_type la)
                       (leave_applications.from_date la)
                       (leave_applications.to_date la)
                       (leave_applications.reason la)
                       (leave_applications.destination la)
                       (leave_applications.contact_during_leave la)
                       (leave_applications.status la)
                       (leave_applications.approved_by_dw la)
                       (leave_applications.approved_by_principal la)
                       (leave_applications.dw_remarks la)
                       (leave_applications.principal_remarks la)
                       (leave_applications.dw_approved_at la)
                       (leave_applications.principal_approved_at la)
                       true (Some token) (Some vf)).
    { unfold set_qr. rewrite Hid, Z.eqb_refl. reflexivity. }
    assert (Hown : own_leave
                     (set_leave_applications db
                        (map (set_qr lid token vf) (t_leave_applications db)))
                     lid (students.id s)
                   = Some (set_qr lid token vf la)).
    { rewrite own_leave_set_qr, El. reflexivity. }
    split; [reflexivity|]. split; [exact Hown|].
    split; [rewrite Hset; reflexivity|].
    split; [rewrite Hset; reflexivity|].
    split; [rewrite Hset; reflexivity|].
    split; [reflexivity|].
    split.
    + unfold getLeaveQRCode.
      rewrite student_of_user_set_leave, Es, Hown, Hset. cbn.
      rewrite Ea. reflexivity.
    + intros la' Hla' _. rewrite El in Hla'. injection Hla' as <-.
      split; reflexivity.
Qed.

(* ----------------------------------------------------------------- *)
(** ** Emergency extensions and the date range of a leave *)










End Properties.

(* ================================================================= *)
(** * The properties on the sample data *)

Import Sample.

(** The sample database is what the requests leave behind. *)
Lemma db0_tables :
  t_leave_applications db0 = [leaveA; leaveB; leaveC; leaveD]
  /\ t_emergency_extensions db0 = [ext1]
  /\ t_gate_logs db0 = [].
Proof. repeat split; vm_compute; reflexivity. Qed.

Lemma reachable_run (P : Platform) (rs : list Request) (db : DB) :
  reachable P db -> reachable P (fold_left (handle P) rs db).
Proof.
  revert db. induction rs as [|r rs IH]; cbn; intros db H; [exact H|].
  apply IH. now apply reach_handle.
Qed.

Lemma db_exited_reachable : reachable platform db_exited.
Proof.
  unfold db_exited, db_issued.
  do 3 apply reach_handle. unfold db0. apply reachable_run.
  apply reach_init. reflexivity.
Qed.

(** C3. A scan after 23:59:59 of the leave's to_date, EXIT or ENTRY, with
    an authentic credential of an approved leave: [validateQRCode] reports
    'Leave period expired' as a plain failure, so the log entry is built
    with status INVALID (not EXPIRED) and without a student; gate_logs
    refuses that row and the scan is answered 500 with nothing logged. *)
Theorem scan_after_end_of_leave :
  end_of_leave leaveA < after_leaveA
  /\ scanDecide platform env0 db_issued (clock_at after_leaveA) 3
                tokenA "EXIT" None
     = Some (mkValidation false None "Leave period expired",
             mkLogEntry None None "EXIT" 3 tokenA INVALID
                        "Leave period expired" "Main Gate")
  /\ scanQRCode platform env0 db_issued (clock_at after_leaveA) 3
                (scan_body tokenA "EXIT")
     = (fail 500 "QR code scanning failed", db_issued)
  /\ scanDecide platform env0 db_exited (clock_at after_leaveA) 3
                tokenA "ENTRY" None
     = Some (mkValidation false None "Leave period expired",
             mkLogEntry None None "ENTRY" 3 tokenA INVALID
                        "Leave period expired" "Main Gate")
  /\ scanQRCode platform env0 db_exited (clock_at after_leaveA) 3
                (scan_body tokenA "ENTRY")
     = (fail 500 "QR code scanning failed", db_exited).
Proof. repeat split; vm_compute; reflexivity. Qed.

(** C9. A scan of a tampered token with the action EXIT: the log entry is
    built with status INVALID and no student, gate_logs (student_id INT NOT
    NULL) refuses it, and the handler answers 500 'QR code scanning failed':
    no row is appended and no decision is returned. *)
Theorem tampered_scan_is_not_logged :
  scanDecide platform env0 db_issued (clock_at evening) 3
             tokenA_tampered "EXIT" None
  = Some (mkValidation false None "QR code tampered or invalid",
          mkLogEntry None None "EXIT" 3 tokenA_tampered INVALID
                     "QR code tampered or invalid" "Main Gate")
  /\ scanQRCode platform env0 db_issued (clock_at evening) 3
                (scan_body tokenA_tampered "EXIT")
     = (fail 500 "QR code scanning failed", db_issued)
  /\ t_gate_logs (snd (scanQRCode platform env0 db_issued (clock_at evening) 3
                                  (scan_body tokenA_tampered "EXIT")))
     = t_gate_logs db_issued.
Proof. repeat split; vm_compute; reflexivity. Qed.





(** Witness of C5. *)
Lemma tampered_fromDate_rejected_witness :
  flip_one (fromDate (qrObject platform env0 leaveA asha)) "1728000000001"
  /\ JSON_parse platform tokenA_tampered
     = Some (with_fromDate (qrObject platform env0 leaveA asha)
                           "1728000000001")
  /\ validateQRCode platform env0 db_issued evening tokenA_tampered
     = mkValidation false None "QR code tampered or invalid".
Proof.
  assert (Hf : flip_one (fromDate (qrObject platform env0 leaveA asha))
                        "1728000000001").
  { change (fromDate (qrObject platform env0 leaveA asha))
      with "1728000000000"%string.
    repeat apply flip_later. apply flip_here. discriminate. }
  assert (Hp : JSON_parse platform tokenA_tampered
               = Some (with_fromDate (qrObject platform env0 leaveA asha)
                                     "1728000000001"))
    by (vm_compute; reflexivity).
  split; [exact Hf|]. split; [exact Hp|].
  exact (tampered_fromDate_rejected platform env0 db_issued evening
           leaveA asha "1728000000001" tokenA_tampered
           (fun H => H) Hf Hp).
Defined.


(** Witness of C7: the QR code of leave A, asked for twice. *)
Lemma qr_issue_idempotent_witness :
  exists d1 d2,
    data (fst (getLeaveQRCode platform env0 db0 10 1)) = Some d1
    /\ getLeaveQRCode platform env0
         (snd (getLeaveQRCode platform env0 db0 10 1)) 10 1
       = (mkResponse 200 true "" (Some d2),
          snd (getLeaveQRCode platform env0 db0 10 1))
    /\ qrCode d2 = qrCode d1
    /\ qr_validFrom d2 = qr_validFrom d1
    /\ qr_validFrom d1 = Some (midnight 20000 - 2 * 60 * 60 * 1000).
Proof.
  destruct (data (fst (getLeaveQRCode platform env0 db0 10 1)))
    as [d1|] eqn:Hd; [|vm_compute in Hd; discriminate].
  destruct (qr_issue_idempotent platform env0 env0 db0 10 1 d1 Hd)
    as (s & la1 & token & Hs & _ & _ & _ & _ & Hq & Hsecond & Hfirst).
  eexists d1, _. split; [reflexivity|]. split; [exact Hsecond|].
  cbn [qrCode qr_validFrom]. split; [now rewrite Hq|]. split; [reflexivity|].
  assert (s = asha) by (vm_compute in Hs; injection Hs as <-; reflexivity).
  subst s.
  destruct (Hfirst leaveA eq_refl eq_refl) as [_ Hv]. exact Hv.
Defined.




(* ================================================================= *)
(** * Further properties of the handlers *)

(** ** Shared lemmas *)




Lemma lastLog_snoc_other (db : DB) (g : gate_logs.row) (sid lid : Z) :
  gate_logs.student_id g <> sid
  \/ gate_logs.leave_application_id g <> Some lid ->
  lastLog (set_gate_logs db (t_gate_logs db ++ [g])) sid lid
  = lastLog db sid lid.
Proof.
  intros H. unfold lastLog. cbn [t_gate_logs set_gate_logs].
  rewrite filter_app. cbn [filter].
  assert (E : (gate_logs.student_id g =? sid)
              && opt_Z_eqb (gate_logs.leave_application_id g) lid = false).
  { destruct (gate_logs.student_id g =? sid) eqn:Es; [|reflexivity].
    apply Z.eqb_eq in Es. cbn [andb]. unfold opt_Z_eqb.
    destruct (gate_logs.leave_application_id g) as [x|]; [|reflexivity].
    apply Z.eqb_neq. intros ->. destruct H as [H|H]; congruence. }
  rewrite E, app_nil_r. reflexivity.
Qed.

Section MoreProperties.

Variable P : Platform.

Ltac break_if :=
  match goal with
  | |- context [match ?x with _ => _ end] =>
      lazymatch x with
      | context [match _ with _ => _ end] => fail
      | _ => destruct x eqn:?
      end
  end.

(** The gate log plays no part in [validateQRCode]. *)
Lemma validate_ignores_log (env : Env) (db : DB) (l : list gate_logs.row)
    (now_ : Z) (qr : string) :
  validateQRCode P env (set_gate_logs db l) now_ qr
  = validateQRCode P env db now_ qr.
Proof. reflexivity. Qed.

(** The conditions under which [validateQRCode] accepts. *)
Lemma validate_accepts (env : Env) (db : DB) (now_ : Z) (qr : string)
    (q : QRData) (la : leave_applications.row) :
  JSON_parse P qr = Some q ->
  hash q = generateHash P env (leaveId q) (studentId q) (fromDate q) ->
  leave_of db (leaveId q) (studentId q) = Some la ->
  is_approved (leave_applications.status la) = true ->
  match leave_applications.qr_code_expires_at la with
  | Some t => t
  | None => 0
  end <= now_ ->
  now_ <= end_of_leave la ->
  validateQRCode P env db now_ qr
  = mkValidation true (Some la) "Valid QR code".
Proof.
  intros Hq Hh Hl Ha Hfrom Hto. unfold validateQRCode.
  rewrite Hq, Hh, String.eqb_refl, Hl, Ha. cbn [negb].
  apply Z.ltb_ge in Hfrom. rewrite Hfrom.
  assert (E : (now_ >? end_of_leave la) = false)
    by (rewrite Z.gtb_ltb; now apply Z.ltb_ge).
  rewrite E. reflexivity.
Qed.


(* ----------------------------------------------------------------- *)
(** ** Sequences of scans *)




(* ----------------------------------------------------------------- *)
(** ** Manual entries *)

Lemma manual_effect_db (db : DB) (stamp user : Z) (body : ManualBody) :
  snd (manualEntryExit db stamp user body) = db
  \/ exists cid action_ reason_ student,
       mb_collegeId body = Some cid /\ mb_actionType body = Some action_
       /\ mb_reason body = Some reason_
       /\ cid <> "" /\ action_ <> "" /\ reason_ <> ""
       /\ find (fun s => (students.college_id s =? cid)%string)
               (t_students db) = Some student
       /\ manualEntryExit db stamp user body
          = (mkResponse 200 true
               ("Manual " ++ action_ ++ " recorded successfully")
               (Some (mkManualData (next_id gate_logs.id (t_gate_logs db))
                        (students.student_name student) action_)),
             set_gate_logs db
               (t_gate_logs db ++
                [gate_logs.mk (next_id gate_logs.id (t_gate_logs db))
                   (students.id student) None action_ user stamp None
                   MANUAL ("Manual " ++ action_ ++ ": " ++ reason_)
                   (Some "Main Gate")])%list).
Proof.
  unfold manualEntryExit, insert_gate_log.
  destruct (mb_collegeId body) as [cid|]; [|now left].
  destruct (mb_actionType body) as [a|]; [|now left].
  destruct (mb_reason body) as [r|]; [|now left].
  destruct cid as [|c0 cid]; [now left|].
  destruct a as [|a0 a]; [now left|].
  destruct r as [|r0 r]; [now left|].
  cbn [truthy negb orb].
  destruct (find _ (t_students db)) as [student|] eqn:Ef; [|now left].
  right. exists (String c0 cid), (String a0 a), (String r0 r), student.
  repeat split; try discriminate; try reflexivity. exact Ef.
Qed.


(** The decision of a scan depends on the gate log through [lastLog]
    only. *)
Lemma scanDecide_same (env : Env) (db db' : DB) (clk : ScanClock) (user : Z)
    (qr action_ : string) (loc : option string) :
  (forall now_, validateQRCode P env db' now_ qr
                = validateQRCode P env db now_ qr) ->
  (forall sid lid, lastLog db' sid lid = lastLog db sid lid) ->
  scanDecide P env db' clk user qr action_ loc
  = scanDecide P env db clk user qr action_ loc.
Proof.
  intros Hval Hlast. unfold scanDecide. rewrite Hval.
  destruct (valid _); [|reflexivity].
  destruct (JSON_parse P qr) as [q|]; [|reflexivity].
  rewrite Hlast. reflexivity.
Qed.

(** X5. Manual entries do not take part in the sequencing of scans: the
    decision of every scan (validation, status, message) is the same
    after a manual entry as before it. In particular a manual EXIT is not
    the exit record that an ENTRY scan requires. *)
Theorem manual_entry_ignored_by_scans (env : Env) (db : DB)
    (stamp user : Z) (body : ManualBody)
    (clk : ScanClock) (user' : Z) (qr action_ : string)
    (loc : option string) :
  scanDecide P env (snd (manualEntryExit db stamp user body))
             clk user' qr action_ loc
  = scanDecide P env db clk user' qr action_ loc.
Proof.
  destruct (manual_effect_db db stamp user body)
    as [->|(cid & a & r & student & _ & _ & _ & _ & _ & _ & _ & ->)];
    [reflexivity|].
  cbn [snd]. apply scanDecide_same.
  - intros now_. apply validate_ignores_log.
  - intros sid lid. apply lastLog_snoc_other. right. discriminate.
Qed.

(* ----------------------------------------------------------------- *)
(** ** The students-outside listing along the handlers *)

Lemma insert_desc_sorted (r : OutsideRow) (l : list OutsideRow) :
  StronglySorted exit_time_desc l ->
  StronglySorted exit_time_desc (insert_desc r l).
Proof.
  induction 1 as [|x l Hs IH Hx]; cbn.
  - repeat constructor.
  - destruct (exit_time x <? exit_time r) eqn:E.
    + apply Z.ltb_lt in E. constructor; [now constructor|].
      constructor; [unfold exit_time_desc; lia|].
      eapply Forall_impl; [|exact Hx].
      unfold exit_time_desc. intros a Ha. lia.
    + apply Z.ltb_ge in E. constructor; [exact IH|].
      apply Forall_forall. intros a Ha. apply In_insert_desc in Ha.
      destruct Ha as [->|Ha]; [exact E|].
      rewrite Forall_forall in Hx. now apply Hx.
Qed.

Lemma insert_desc_NoDup (r : OutsideRow) (l : list OutsideRow) :
  ~ In r l -> NoDup l -> NoDup (insert_desc r l).
Proof.
  intros Hr Hl. induction Hl as [|x l Hx Hl IH]; cbn.
  - constructor; [intros []|constructor].
  - destruct (exit_time x <? exit_time r).
    + constructor; [exact Hr|]. now constructor.
    + constructor.
      * intros Hin. apply In_insert_desc in Hin.
        destruct Hin as [->|Hin]; [apply Hr; now left|contradiction].
      * apply IH. intros Hin. apply Hr. now right.
Qed.

(** X6. The students-outside listing is ordered by exit time, newest
    first, holds no row twice, and its count is the number of rows. *)
Theorem students_outside_ordered (db : DB) (curdate : Z) :
  StronglySorted exit_time_desc (studentsOutside db curdate)
  /\ NoDup (studentsOutside db curdate)
  /\ data (getStudentsOutside db curdate)
     = Some (studentsOutside db curdate,
             Z.of_nat (List.length (studentsOutside db curdate))).
Proof.
  enough (H : StronglySorted exit_time_desc (studentsOutside db curdate)
              /\ NoDup (studentsOutside db curdate))
    by (destruct H; repeat split; assumption).
  unfold studentsOutside.
  pose proof (NoDup_nodup OutsideRow_eq_dec
                (select_rows (outside_row db curdate) (t_gate_logs db)))
    as Hnd.
  induction Hnd as [|x l Hx Hl IH].
  - split; [apply SSorted_nil|apply NoDup_nil].
  - destruct IH as (Hs & Hn).
    change (order_by_exit_time_desc (x :: l))
      with (insert_desc x (order_by_exit_time_desc l)).
    split; [now apply insert_desc_sorted|].
    apply insert_desc_NoDup; [|exact Hn].
    intros Hin. apply Hx. apply -> In_order_by in Hin. exact Hin.
Qed.








(* ----------------------------------------------------------------- *)
(** ** What each handler writes *)

Lemma applyLeave_effect (env : Env) (db : DB) (today0 user : Z)
    (body : ApplyBody) :
  (snd (applyLeave P env db today0 user body) = db
   /\ http (fst (applyLeave P env db today0 user body)) <> 201)
  \/ exists s from_ to_ row notes,
       student_of_user db user = Some s
       /\ ab_fromDate body = Some from_ /\ ab_toDate body = Some to_
       /\ from_ <= to_
       /\ overlappingLeave db (students.id s) from_ to_ = None
       /\ leave_applications.id row
          = next_id leave_applications.id (t_leave_applications db)
       /\ leave_applications.student_id row = students.id s
       /\ leave_applications.from_date row = from_
       /\ leave_applications.to_date row = to_
       /\ leave_applications.status row = PENDING
       /\ leave_applications.qr_code_generated row = false
       /\ http (fst (applyLeave P env db today0 user body)) = 201
       /\ snd (applyLeave P env db today0 user body)
          = add_notifications
              (set_leave_applications db
                 (t_leave_applications db ++ [row])%list) notes.
Proof.
  unfold applyLeave.
  destruct (student_of_user db user) as [s|];
    [|left; split; [reflexivity|discriminate]].
  destruct (ab_fromDate body) as [from_|];
    [|left; split; [reflexivity|discriminate]].
  destruct (ab_toDate body) as [to_|];
    [|left; split; [reflexivity|discriminate]].
  destruct (ab_reason body) as [reason_|];
    [|left; split; [reflexivity|discriminate]].
  destruct (negb (truthy (Some reason_)));
    [left; split; [reflexivity|discriminate]|].
  destruct (midnight to_ <? midnight from_) eqn:Em;
    [left; split; [reflexivity|discriminate]|].
  destruct (_ <? or_default (MIN_ADVANCE_DAYS env) 2);
    [left; split; [reflexivity|discriminate]|].
  destruct (overlappingLeave db (students.id s) from_ to_) eqn:Eo;
    [left; split; [reflexivity|discriminate]|].
  right. apply Z.ltb_ge in Em. unfold midnight, MS_PER_DAY in Em.
  exists s, from_, to_. eexists. eexists.
  repeat split;
    try (cbn [fst snd]; reflexivity); try lia; try exact Eo;
    cbn [leave_applications.id leave_applications.student_id
         leave_applications.from_date leave_applications.to_date
         leave_applications.status leave_applications.qr_code_generated];
    reflexivity.
Qed.

Lemma getLeaveQRCode_effect (env : Env) (db : DB) (user lid : Z) :
  snd (getLeaveQRCode P env db user lid) = db
  \/ exists qr vf,
       snd (getLeaveQRCode P env db user lid)
       = set_leave_applications db
           (map (set_qr lid qr vf) (t_leave_applications db)).
Proof.
  unfold getLeaveQRCode.
  destruct (student_of_user db user) as [s|]; [|now left].
  destruct (own_leave db lid (students.id s)) as [la|]; [|now left].
  destruct (negb (is_approved _)); [now left|].
  destruct (negb (leave_applications.qr_code_generated la)).
  - right. eexists _, _. reflexivity.
  - destruct (leave_applications.qr_code_data la); now left.
Qed.

Lemma processLeaveByDW_effect (env : Env) (db : DB) (at_ user lid : Z)
    (body : DecideBody) :
  (snd (processLeaveByDW env db at_ user lid body) = db
   /\ http (fst (processLeaveByDW env db at_ user lid body)) <> 200)
  \/ exists la s st note,
       pending_leave db lid = Some (la, s)
       /\ staff_of_user db user = Some st
       /\ sql_duration la <= or_default (MAX_REGULAR_LEAVE_DAYS env) 15
       /\ http (fst (processLeaveByDW env db at_ user lid body)) = 200
       /\ snd (processLeaveByDW env db at_ user lid body)
          = add_notifications
              (set_leave_applications db
                 (map (set_dw lid
                         (if is_approve (action body) then APPROVED_DW
                          else REJECTED)
                         (staff.id st) (remarks body) at_)
                      (t_leave_applications db))) [note].
Proof.
  unfold processLeaveByDW.
  destruct (negb (truthy (action body)) || negb (action_ok (action body)));
    [left; split; [reflexivity|discriminate]|].
  destruct (pending_leave db lid) as [[la s]|];
    [|left; split; [reflexivity|discriminate]].
  destruct (sql_duration la >? _) eqn:Ed;
    [left; split; [reflexivity|discriminate]|].
  destruct (staff_of_user db user) as [st|];
    [|left; split; [reflexivity|discriminate]].
  right. exists la, s, st. eexists.
  rewrite Z.gtb_ltb in Ed. apply Z.ltb_ge in Ed.
  repeat split; try reflexivity. exact Ed.
Qed.

Lemma processLeaveByPrincipal_effect (db : DB) (at_ user lid : Z)
    (body : DecideBody) :
  (snd (processLeaveByPrincipal db at_ user lid body) = db
   /\ http (fst (processLeaveByPrincipal db at_ user lid body)) <> 200)
  \/ exists la s st note,
       pending_leave db lid = Some (la, s)
       /\ staff_of_user db user = Some st
       /\ http (fst (processLeaveByPrincipal db at_ user lid body)) = 200
       /\ snd (processLeaveByPrincipal db at_ user lid body)
          = add_notifications
              (set_leave_applications db
                 (map (set_principal lid
                         (if is_approve (action body) then APPROVED_PRINCIPAL
                          else REJECTED)
                         (staff.id st) (remarks body) at_)
                      (t_leave_applications db))) [note].
Proof.
  unfold processLeaveByPrincipal.
  destruct (negb (truthy (action body)) || negb (action_ok (action body)));
    [left; split; [reflexivity|discriminate]|].
  destruct (pending_leave db lid) as [[la s]|];
    [|left; split; [reflexivity|discriminate]].
  destruct (staff_of_user db user) as [st|];
    [|left; split; [reflexivity|discriminate]].
  right. exists la, s, st. eexists. repeat split; reflexivity.
Qed.

Lemma requestEmergencyExtension_effect (db : DB) (user : Z)
    (body : ExtensionBody) :
  (snd (requestEmergencyExtension db user body) = db
   /\ http (fst (requestEmergencyExtension db user body)) <> 201)
  \/ exists la s p reason_ notes,
       leave_of_child db (eb_leaveId body) user = Some (la, s)
       /\ is_approved (leave_applications.status la) = true
       /\ leave_applications.to_date la < eb_extendedToDate body
       /\ parent_of_user db user = Some p
       /\ eb_reason body = Some reason_
       /\ requestEmergencyExtension db user body
          = (mkResponse 201 true "Emergency extension requested successfully"
               (Some (next_id emergency_extensions.id
                              (t_emergency_extensions db))),
             add_notifications
               (set_emergency_extensions db
                  (t_emergency_extensions db ++
                   [emergency_extensions.mk
                      (next_id emergency_extensions.id
                               (t_emergency_extensions db))
                      (eb_leaveId body) (parents.id p)
                      (eb_extendedToDate body) (Some reason_) EXT_PENDING
                      None None None])%list) notes).
Proof.
  unfold requestEmergencyExtension.
  destruct (leave_of_child db (eb_leaveId body) user) as [[la s]|];
    [|left; split; [reflexivity|discriminate]].
  destruct (is_approved (leave_applications.status la)) eqn:Ea;
    [|left; split; [reflexivity|discriminate]].
  cbn [negb].
  destruct (midnight (eb_extendedToDate body) <=? _) eqn:Em;
    [left; split; [reflexivity|discriminate]|].
  destruct (parent_of_user db user) as [p|];
    [|left; split; [reflexivity|discriminate]].
  destruct (eb_reason body) as [reason_|];
    [|left; split; [reflexivity|discriminate]].
  right. exists la, s, p, reason_. eexists.
  apply Z.leb_gt in Em. unfold midnight, MS_PER_DAY in Em.
  repeat split; try reflexivity; try exact Ea. lia.
Qed.

Lemma processEmergencyExtension_effect (db : DB) (at_ user eid : Z)
    (body : DecideBody) :
  (snd (processEmergencyExtension db at_ user eid body) = db
   /\ http (fst (processEmergencyExtension db at_ user eid body)) <> 200)
  \/ exists ee su pu st notes,
       pending_extension db eid = Some (ee, su, pu)
       /\ staff_of_user db user = Some st
       /\ http (fst (processEmergencyExtension db at_ user eid body)) = 200
       /\ snd (processEmergencyExtension db at_ user eid body)
          = add_notifications
              (let db1 :=
                 set_emergency_extensions db
                   (map (set_extension eid
                           (if is_approve (action body) then EXT_APPROVED
                            else EXT_REJECTED)
                           (staff.id st) (remarks body) at_)
                        (t_emergency_extensions db)) in
               if is_approve (action body) then
                 set_leave_applications db1
                   (map (set_to_date
                           (emergency_extensions.leave_application_id ee)
                           (emergency_extensions.extended_to_date ee))
                        (t_leave_applications db1))
               else db1) notes.
Proof.
  unfold processEmergencyExtension.
  destruct (pending_extension db eid) as [[[ee su] pu]|];
    [|left; split; [reflexivity|discriminate]].
  destruct (staff_of_user db user) as [st|];
    [|left; split; [reflexivity|discriminate]].
  right. exists ee, su, pu, st. eexists. repeat split; reflexivity.
Qed.

Lemma scan_action_checked (env : Env) (db : DB) (clk : ScanClock) (user : Z)
    (body : ScanBody) :
  t_gate_logs (snd (scanQRCode P env db clk user body)) <> t_gate_logs db ->
  exists a, actionType body = Some a /\ (a = "EXIT" \/ a = "ENTRY").
Proof.
  unfold scanQRCode.
  destruct (negb (truthy (qrData body)) || negb (truthy (actionType body)));
    [intros H; now destruct H|].
  destruct (qrData body) as [qr|]; [|intros H; now destruct H].
  destruct (actionType body) as [a|]; [|intros H; now destruct H].
  destruct ((a =? "EXIT")%string || (a =? "ENTRY")%string) eqn:Ea;
    cbn [negb]; [|intros H; now destruct H].
  intros _. exists a. split; [reflexivity|].
  apply orb_prop in Ea. destruct Ea as [Ea|Ea]; apply String.eqb_eq in Ea; auto.
Qed.

(* ----------------------------------------------------------------- *)
(** ** What the gate log can hold *)

(** X10. Every row the backend ever writes to the gate log is either a
    manual row (status MANUAL, no leave application, no QR code) or the
    row of a scan whose credential was accepted: it names a leave
    application and carries the QR code, and it is an EXIT logged VALID or
    an ENTRY logged VALID, INVALID or EXPIRED. The status UNAUTHORIZED is
    never written, and no EXIT is ever logged as denied. *)
Theorem gate_log_rows_shape (db : DB) :
  reachable P db ->
  forall g, In g (t_gate_logs db) -> log_row_shape g.
Proof.
  induction 1 as [db Hempty | db r _ IH | db db' _ IH Hlog _ _].
  - intros g Hin. rewrite Hempty in Hin. destruct Hin.
  - destruct r; cbn [handle].
    + rewrite applyLeave_keeps_log. exact IH.
    + rewrite getLeaveQRCode_keeps_log. exact IH.
    + rewrite processLeaveByDW_keeps_log. exact IH.
    + rewrite processLeaveByPrincipal_keeps_log. exact IH.
    + rewrite requestEmergencyExtension_keeps_log. exact IH.
    + rewrite processEmergencyExtension_keeps_log. exact IH.
    + destruct (scan_effect P env db clk user body)
        as [[Hdb _]|(qr & a & v & e & sid & _ & Ha & _ & Ho & Hs & Hdb & _)].
      * rewrite Hdb. exact IH.
      * assert (Hact : a = "EXIT" \/ a = "ENTRY").
        { destruct (scan_action_checked env db clk user body)
            as (a' & Ha' & Hor).
          - rewrite Hdb. cbn [t_gate_logs set_gate_logs]. intros E.
            apply (f_equal (@List.length _)) in E.
            rewrite length_app in E. cbn in E. lia.
          - congruence. }
        rewrite Hdb. cbn [t_gate_logs set_gate_logs].
        intros g Hin. apply in_app_or in Hin.
        destruct Hin as [Hin|[<-|[]]]; [now apply IH|].
        right. unfold row_of_entry.
        cbn [gate_logs.leave_application_id gate_logs.qr_code_data
             gate_logs.action_type gate_logs.validation_status].
        inversion Ho; subst; cbn in Hs |- *; try discriminate.
        -- split; [discriminate|]. split; [discriminate|].
           destruct Hact as [->| ->]; auto.
        -- split; [discriminate|]. split; [discriminate|]. auto.
        -- split; [discriminate|]. split; [discriminate|]. auto 6.
    + destruct (manual_effect_db db stamp user body)
        as [->|(cid & a & rs & st & _ & _ & _ & _ & _ & _ & _ & ->)];
        [exact IH|].
      cbn [snd t_gate_logs set_gate_logs]. intros g Hin.
      apply in_app_or in Hin. destruct Hin as [Hin|[<-|[]]]; [now apply IH|].
      left. cbn. auto.
  - rewrite Hlog. exact IH.
Qed.

(* ----------------------------------------------------------------- *)
(** ** Decisions on leaves *)

Lemma find_none_all {A : Type} (p : A -> bool) (l : list A) :
  (forall x, In x l -> p x = false) -> find p l = None.
Proof.
  induction l as [|a l IH]; intros H; cbn; [reflexivity|].
  rewrite (H a (or_introl eq_refl)). apply IH. intros x Hx. apply H. now right.
Qed.

Lemma unique_by_key {A : Type} (key : A -> Z) (l : list A) (a b : A) :
  NoDup (map key l) -> In a l -> In b l -> key a = key b -> a = b.
Proof.
  induction l as [|x l IH]; cbn; intros Hnd Ha Hb Hk; [destruct Ha|].
  inversion Hnd as [|k ks Hnotin Hnd']; subst.
  destruct Ha as [->|Ha], Hb as [->|Hb].
  - reflexivity.
  - exfalso. apply Hnotin. rewrite Hk. now apply in_map.
  - exfalso. apply Hnotin. rewrite <- Hk. now apply in_map.
  - now apply IH.
Qed.


Lemma pending_leave_found (db : DB) (lid : Z) (la : leave_applications.row)
    (s : students.row) :
  pending_leave db lid = Some (la, s) ->
  In la (t_leave_applications db)
  /\ leave_applications.id la = lid
  /\ leave_applications.status la = PENDING
  /\ student_by_id db (leave_applications.student_id la) = Some s.
Proof.
  unfold pending_leave.
  destruct (find _ (t_leave_applications db)) as [la0|] eqn:Ef;
    [|discriminate].
  destruct (student_by_id db (leave_applications.student_id la0)) as [s0|]
    eqn:Es; [|discriminate].
  intros H. injection H as <- <-.
  apply find_some in Ef. destruct Ef as [Hin Hp].
  apply andb_prop in Hp. destruct Hp as [Hid Hst].
  apply Z.eqb_eq in Hid.
  repeat split; try assumption.
  destruct (leave_applications.status la0); try discriminate; reflexivity.
Qed.

Lemma pending_after_update (db : DB) (lid : Z)
    (f : leave_applications.row -> leave_applications.row)
    (notes : list notifications.row) :
  (forall la, leave_applications.id la = lid ->
              leave_applications.status (f la) <> PENDING) ->
  (forall la, leave_applications.id la <> lid -> f la = la) ->
  pending_leave
    (add_notifications
       (set_leave_applications db (map f (t_leave_applications db))) notes)
    lid = None.
Proof.
  intros Hst Hid. unfold pending_leave.
  cbn [t_leave_applications add_notifications set_leave_applications].
  rewrite find_none_all; [reflexivity|].
  intros x Hin. apply in_map_iff in Hin. destruct Hin as (la & <- & _).
  destruct (Z.eq_dec (leave_applications.id la) lid) as [E|E].
  - specialize (Hst la E).
    destruct (leave_applications.status (f la)); try contradiction;
      apply andb_false_r.
  - rewrite (Hid la E). apply Z.eqb_neq in E. now rewrite E.
Qed.

Lemma set_dw_fields (lid : Z) (st : LeaveStatus) (by_staff : Z)
    (rem : option string) (at_ : Z) (la : leave_applications.row) :
  leave_applications.id (set_dw lid st by_staff rem at_ la)
  = leave_applications.id la
  /\ leave_applications.student_id (set_dw lid st by_staff rem at_ la)
     = leave_applications.student_id la
  /\ leave_applications.from_date (set_dw lid st by_staff rem at_ la)
     = leave_applications.from_date la
  /\ leave_applications.to_date (set_dw lid st by_staff rem at_ la)
     = leave_applications.to_date la
  /\ leave_applications.status (set_dw lid st by_staff rem at_ la)
     = (if leave_applications.id la =? lid then st
        else leave_applications.status la).
Proof.
  unfold set_dw. destruct (leave_applications.id la =? lid); cbn; auto.
Qed.

Lemma set_principal_fields (lid : Z) (st : LeaveStatus) (by_staff : Z)
    (rem : option string) (at_ : Z) (la : leave_applications.row) :
  leave_applications.id (set_principal lid st by_staff rem at_ la)
  = leave_applications.id la
  /\ leave_applications.student_id (set_principal lid st by_staff rem at_ la)
     = leave_applications.student_id la
  /\ leave_applications.from_date (set_principal lid st by_staff rem at_ la)
     = leave_applications.from_date la
  /\ leave_applications.to_date (set_principal lid st by_staff rem at_ la)
     = leave_applications.to_date la
  /\ leave_applications.status (set_principal lid st by_staff rem at_ la)
     = (if leave_applications.id la =? lid then st
        else leave_applications.status la).
Proof.
  unfold set_principal. destruct (leave_applications.id la =? lid); cbn; auto.
Qed.

Lemma set_qr_fields (lid : Z) (qr : string) (vf : Z)
    (la : leave_applications.row) :
  leave_applications.id (set_qr lid qr vf la) = leave_applications.id la
  /\ leave_applications.student_id (set_qr lid qr vf la)
     = leave_applications.student_id la
  /\ leave_applications.from_date (set_qr lid qr vf la)
     = leave_applications.from_date la
  /\ leave_applications.to_date (set_qr lid qr vf la)
     = leave_applications.to_date la
  /\ leave_applications.status (set_qr lid qr vf la)
     = leave_applications.status la.
Proof.
  unfold set_qr. destruct (leave_applications.id la =? lid); cbn; auto.
Qed.

Lemma set_to_date_fields (lid d : Z) (la : leave_applications.row) :
  leave_applications.id (set_to_date lid d la) = leave_applications.id la
  /\ leave_applications.student_id (set_to_date lid d la)
     = leave_applications.student_id la
  /\ leave_applications.from_date (set_to_date lid d la)
     = leave_applications.from_date la
  /\ leave_applications.to_date (set_to_date lid d la)
     = (if leave_applications.id la =? lid then d
        else leave_applications.to_date la)
  /\ leave_applications.status (set_to_date lid d la)
     = leave_applications.status la.
Proof.
  unfold set_to_date. destruct (leave_applications.id la =? lid); cbn; auto.
Qed.

Lemma decided_leave_not_pending (env : Env) (db db1 : DB)
    (at_ user lid : Z) (body : DecideBody) :
  (http (fst (processLeaveByDW env db at_ user lid body)) = 200
   /\ db1 = snd (processLeaveByDW env db at_ user lid body))
  \/ (http (fst (processLeaveByPrincipal db at_ user lid body)) = 200
      /\ db1 = snd (processLeaveByPrincipal db at_ user lid body)) ->
  pending_leave db1 lid = None.
Proof.
  intros [[H200 ->]|[H200 ->]].
  - destruct (processLeaveByDW_effect env db at_ user lid body)
      as [[_ Hne]|(la & s & st & note & _ & _ & _ & _ & ->)];
      [contradiction|].
    apply pending_after_update.
    + intros x Hx.
      destruct (set_dw_fields
                  lid (if is_approve (action body) then APPROVED_DW
                       else REJECTED) (staff.id st) (remarks body) at_ x)
        as (_ & _ & _ & _ & ->).
      apply Z.eqb_eq in Hx. rewrite Hx.
      destruct (is_approve (action body)); discriminate.
    + intros x Hx. unfold set_dw. apply Z.eqb_neq in Hx. now rewrite Hx.
  - destruct (processLeaveByPrincipal_effect db at_ user lid body)
      as [[_ Hne]|(la & s & st & note & _ & _ & _ & ->)];
      [contradiction|].
    apply pending_after_update.
    + intros x Hx.
      destruct (set_principal_fields
                  lid (if is_approve (action body) then APPROVED_PRINCIPAL
                       else REJECTED) (staff.id st) (remarks body) at_ x)
        as (_ & _ & _ & _ & ->).
      apply Z.eqb_eq in Hx. rewrite Hx.
      destruct (is_approve (action body)); discriminate.
    + intros x Hx. unfold set_principal. apply Z.eqb_neq in Hx.
      now rewrite Hx.
Qed.

(** X11. A decision on a leave is final. Once the deputy warden's or the
    principal's handler has answered 200 for a leave, every later decision
    request for that leave, at either tier, from any staff member and with
    either action, changes nothing in the database, and with a valid action
    it is answered 404 "Leave application not found or already
    processed". *)
Theorem decision_is_final (env : Env) (db db1 : DB) (at_ user lid : Z)
    (body : DecideBody) :
  (http (fst (processLeaveByDW env db at_ user lid body)) = 200
   /\ db1 = snd (processLeaveByDW env db at_ user lid body))
  \/ (http (fst (processLeaveByPrincipal db at_ user lid body)) = 200
      /\ db1 = snd (processLeaveByPrincipal db at_ user lid body)) ->
  forall (env' : Env) (at' user' : Z) (body' : DecideBody),
    snd (processLeaveByDW env' db1 at' user' lid body') = db1
    /\ snd (processLeaveByPrincipal db1 at' user' lid body') = db1
    /\ (action_ok (action body') = true ->
        processLeaveByDW env' db1 at' user' lid body'
        = (fail 404 "Leave application not found or already processed", db1)
        /\ processLeaveByPrincipal db1 at' user' lid body'
           = (fail 404 "Leave application not found or already processed",
              db1)).
Proof.
  intros H env' at' user' body'.
  pose proof (decided_leave_not_pending env db db1 at_ user lid body H) as Hp.
  unfold processLeaveByDW, processLeaveByPrincipal. rewrite Hp.
  split; [|split].
  - destruct (negb (truthy (action body')) || negb (action_ok (action body')));
      reflexivity.
  - destruct (negb (truthy (action body')) || negb (action_ok (action body')));
      reflexivity.
  - intros Hok. rewrite (action_ok_truthy _ Hok), Hok. cbn [negb orb].
    split; reflexivity.
Qed.

Lemma status_step_refl (s : LeaveStatus) : status_step s s.
Proof. now left. Qed.

(** X12. No request deletes a leave application, changes its id or its
    student, or moves its status otherwise than from PENDING to
    APPROVED_DW, APPROVED_PRINCIPAL or REJECTED: the leave table after a
    request is the old one, row by row, with such changes only, followed
    by the rows the request added, which are PENDING. A decided leave
    keeps its status, and LEAVE_EXPIRED is never written. Ids are assumed
    distinct, as the primary key makes them. *)
Theorem leave_status_moves (db : DB) (r : Request) :
  NoDup (map leave_applications.id (t_leave_applications db)) ->
  exists f rest,
    t_leave_applications (handle P db r)
    = (map f (t_leave_applications db) ++ rest)%list
    /\ (forall la, In la (t_leave_applications db) ->
          leave_applications.id (f la) = leave_applications.id la
          /\ leave_applications.student_id (f la)
             = leave_applications.student_id la
          /\ status_step (leave_applications.status la)
                         (leave_applications.status (f la)))
    /\ (forall la, In la rest -> leave_applications.status la = PENDING).
Proof.
  intros Hnd.
  assert (Hsame : forall db',
             t_leave_applications db' = t_leave_applications db ->
             exists f rest,
               t_leave_applications db'
               = (map f (t_leave_applications db) ++ rest)%list
               /\ (forall la, In la (t_leave_applications db) ->
                     leave_applications.id (f la) = leave_applications.id la
                     /\ leave_applications.student_id (f la)
                        = leave_applications.student_id la
                     /\ status_step (leave_applications.status la)
                                    (leave_applications.status (f la)))
               /\ (forall la, In la rest ->
                              leave_applications.status la = PENDING)).
  { intros db' E. exists (fun la => la), []. rewrite map_id, app_nil_r.
    split; [exact E|]. split; [|intros la []].
    intros la _. repeat split. apply status_step_refl. }
  destruct r; cbn [handle].
  - destruct (applyLeave_effect env db today0 user body)
      as [[-> _]|(s & from_ & to_ & row & notes & _ & _ & _ & _ & _ & _ & _
                  & _ & _ & Hst & _ & _ & ->)];
      [now apply Hsame|].
    exists (fun la => la), [row]. rewrite map_id.
    split; [reflexivity|]. split.
    + intros la _. repeat split. apply status_step_refl.
    + intros la [<-|[]]. exact Hst.
  - destruct (getLeaveQRCode_effect env db user lid) as [->|(qr & vf & ->)];
      [now apply Hsame|].
    exists (set_qr lid qr vf), []. rewrite app_nil_r.
    split; [reflexivity|]. split; [|intros la []].
    intros la _. destruct (set_qr_fields lid qr vf la) as (-> & -> & _ & _ & ->).
    repeat split. apply status_step_refl.
  - destruct (processLeaveByDW_effect env db at_ user lid body)
      as [[-> _]|(la0 & s & st & note & Hp & _ & _ & _ & ->)];
      [now apply Hsame|].
    apply pending_leave_found in Hp. destruct Hp as (Hin0 & Hid0 & Hst0 & _).
    eexists _, []. rewrite app_nil_r.
    split; [reflexivity|]. split; [|intros la []].
    intros la Hin.
    match goal with
    | |- context [set_dw ?a ?b ?c ?d ?e la] =>
        destruct (set_dw_fields a b c d e la) as (-> & -> & _ & _ & ->)
    end.
    repeat split.
    destruct (leave_applications.id la =? lid) eqn:E;
      [|apply status_step_refl].
    apply Z.eqb_eq in E.
    assert (la = la0) as ->
        by (apply (unique_by_key leave_applications.id
                     (t_leave_applications db)); congruence).
    right. split; [exact Hst0|].
    destruct (is_approve (action body)); auto.
  - destruct (processLeaveByPrincipal_effect db at_ user lid body)
      as [[-> _]|(la0 & s & st & note & Hp & _ & _ & ->)];
      [now apply Hsame|].
    apply pending_leave_found in Hp. destruct Hp as (Hin0 & Hid0 & Hst0 & _).
    eexists _, []. rewrite app_nil_r.
    split; [reflexivity|]. split; [|intros la []].
    intros la Hin.
    match goal with
    | |- context [set_principal ?a ?b ?c ?d ?e la] =>
        destruct (set_principal_fields a b c d e la)
          as (-> & -> & _ & _ & ->)
    end.
    repeat split.
    destruct (leave_applications.id la =? lid) eqn:E;
      [|apply status_step_refl].
    apply Z.eqb_eq in E.
    assert (la = la0) as ->
        by (apply (unique_by_key leave_applications.id
                     (t_leave_applications db)); congruence).
    right. split; [exact Hst0|].
    destruct (is_approve (action body)); auto.
  - destruct (requestEmergencyExtension_effect db user body)
      as [[-> _]|(la0 & s & p & rs & notes & _ & _ & _ & _ & _ & ->)];
      now apply Hsame.
  - destruct (processEmergencyExtension_effect db at_ user eid body)
      as [[-> _]|(ee & su & pu & st & notes & _ & _ & _ & ->)];
      [now apply Hsame|].
    destruct (is_approve (action body)); [|now apply Hsame].
    eexists _, []. rewrite app_nil_r.
    split; [reflexivity|]. split; [|intros la []].
    intros la _.
    match goal with
    | |- context [set_to_date ?a ?b la] =>
        destruct (set_to_date_fields a b la) as (-> & -> & _ & _ & ->)
    end.
    repeat split. apply status_step_refl.
  - apply Hsame.
    destruct (scan_effect P env db clk user body)
      as [[-> _]|(qr & a & v & e & sid & _ & _ & _ & _ & _ & -> & _)];
      reflexivity.
  - apply Hsame.
    destruct (manual_effect_db db stamp user body)
      as [->|(cid & a & rs & st & _ & _ & _ & _ & _ & _ & _ & ->)];
      reflexivity.
Qed.

(* ----------------------------------------------------------------- *)
(** ** Well-formed leave tables *)




Lemma set_extension_fields (eid : Z) (st : ExtensionStatus) (by_staff : Z)
    (rem : option string) (at_ : Z) (ee : emergency_extensions.row) :
  emergency_extensions.id (set_extension eid st by_staff rem at_ ee)
  = emergency_extensions.id ee
  /\ emergency_extensions.leave_application_id
       (set_extension eid st by_staff rem at_ ee)
     = emergency_extensions.leave_application_id ee
  /\ emergency_extensions.extended_to_date
       (set_extension eid st by_staff rem at_ ee)
     = emergency_extensions.extended_to_date ee
  /\ emergency_extensions.status (set_extension eid st by_staff rem at_ ee)
     = (if emergency_extensions.id ee =? eid then st
        else emergency_extensions.status ee).
Proof.
  unfold set_extension. destruct (emergency_extensions.id ee =? eid); cbn; auto.
Qed.




(* ----------------------------------------------------------------- *)
(** ** Applying for a leave *)



Lemma find_exists {A : Type} (p : A -> bool) (l : list A) (x : A) :
  In x l -> p x = true -> exists y, find p l = Some y.
Proof.
  induction l as [|a l IH]; cbn; [intros []|].
  intros [->|Hin] Hp; [rewrite Hp; eauto|].
  destruct (p a); eauto.
Qed.



Lemma getLeaveQRCode_refused (env : Env) (db : DB) (user lid : Z) :
  http (fst (getLeaveQRCode P env db user lid)) <> 200 ->
  snd (getLeaveQRCode P env db user lid) = db.
Proof.
  unfold getLeaveQRCode.
  destruct (student_of_user db user) as [s|]; [|reflexivity].
  destruct (own_leave db lid (students.id s)) as [la|]; [|reflexivity].
  destruct (negb (is_approved _)); [reflexivity|].
  destruct (negb (leave_applications.qr_code_generated la)).
  - cbn. intros H. now destruct H.
  - destruct (leave_applications.qr_code_data la); reflexivity.
Qed.

(** X15. A refused request writes nothing. Whenever one of the six leave
    handlers answers with anything but its success status (201 for
    [applyLeave] and [requestEmergencyExtension], 200 for the others),
    the database it leaves is the one it found: no row, no status, no
    date and no notification has changed. *)
Theorem refused_request_writes_nothing (db : DB) (r : Request) :
  match r with
  | ReqApplyLeave env today0 user body =>
      http (fst (applyLeave P env db today0 user body)) <> 201
  | ReqLeaveQRCode env user lid =>
      http (fst (getLeaveQRCode P env db user lid)) <> 200
  | ReqProcessByDW env at_ user lid body =>
      http (fst (processLeaveByDW env db at_ user lid body)) <> 200
  | ReqProcessByPrincipal at_ user lid body =>
      http (fst (processLeaveByPrincipal db at_ user lid body)) <> 200
  | ReqExtension user body =>
      http (fst (requestEmergencyExtension db user body)) <> 201
  | ReqProcessExtension at_ user eid body =>
      http (fst (processEmergencyExtension db at_ user eid body)) <> 200
  | ReqScan _ _ _ _ | ReqManual _ _ _ => False
  end ->
  handle P db r = db.
Proof.
  destruct r; cbn [handle]; intros H.
  - destruct (applyLeave_effect env db today0 user body)
      as [[E _]|(s & f & t & row & notes & _ & _ & _ & _ & _ & _ & _ & _ & _
                 & _ & _ & H201 & _)]; [exact E|contradiction].
  - now apply getLeaveQRCode_refused.
  - destruct (processLeaveByDW_effect env db at_ user lid body)
      as [[E _]|(la & s & st & note & _ & _ & _ & H200 & _)];
      [exact E|contradiction].
  - destruct (processLeaveByPrincipal_effect db at_ user lid body)
      as [[E _]|(la & s & st & note & _ & _ & H200 & _)];
      [exact E|contradiction].
  - destruct (requestEmergencyExtension_effect db user body)
      as [[E _]|(la & s & p & rs & notes & _ & _ & _ & _ & _ & E)];
      [exact E|]. rewrite E in H. now destruct H.
  - destruct (processEmergencyExtension_effect db at_ user eid body)
      as [[E _]|(ee & su & pu & st & notes & _ & _ & H200 & _)];
      [exact E|contradiction].
  - destruct H.
  - destruct H.
Qed.


(* ----------------------------------------------------------------- *)
(** ** Emergency extensions *)

Lemma extensions_after_decision (db : DB) (at_ user eid : Z)
    (body : DecideBody) :
  http (fst (processEmergencyExtension db at_ user eid body)) = 200 ->
  exists ee su pu st,
    pending_extension db eid = Some (ee, su, pu)
    /\ staff_of_user db user = Some st
    /\ t_emergency_extensions
         (snd (processEmergencyExtension db at_ user eid body))
       = map (set_extension eid
                (if is_approve (action body) then EXT_APPROVED
                 else EXT_REJECTED) (staff.id st) (remarks body) at_)
             (t_emergency_extensions db)
    /\ t_leave_applications
         (snd (processEmergencyExtension db at_ user eid body))
       = (if is_approve (action body) then
            map (set_to_date (emergency_extensions.leave_application_id ee)
                             (emergency_extensions.extended_to_date ee))
                (t_leave_applications db)
          else t_leave_applications db)
    /\ t_students (snd (processEmergencyExtension db at_ user eid body))
       = t_students db
    /\ t_parents (snd (processEmergencyExtension db at_ user eid body))
       = t_parents db.
Proof.
  intros H200.
  destruct (processEmergencyExtension_effect db at_ user eid body)
    as [[_ Hne]|(ee & su & pu & st & notes & Hp & Hst & _ & ->)];
    [contradiction|].
  exists ee, su, pu, st. split; [exact Hp|]. split; [exact Hst|].
  destruct (is_approve (action body)); repeat split; reflexivity.
Qed.

(** X17. A decision on an emergency extension is final, and the handler
    validates no action: once [processEmergencyExtension] has answered
    200 for an extension request, every later call for the same request
    is answered 404 "Extension request not found or already processed"
    and changes nothing, whatever the action, the staff member and the
    time. *)
Theorem extension_decision_is_final (db : DB) (at_ user eid : Z)
    (body : DecideBody) :
  http (fst (processEmergencyExtension db at_ user eid body)) = 200 ->
  forall (at' user' : Z) (body' : DecideBody),
    processEmergencyExtension
      (snd (processEmergencyExtension db at_ user eid body))
      at' user' eid body'
    = (fail 404 "Extension request not found or already processed",
       snd (processEmergencyExtension db at_ user eid body)).
Proof.
  intros H200 at' user' body'.
  destruct (extensions_after_decision db at_ user eid body H200)
    as (ee & su & pu & st & _ & _ & Hext & _).
  assert (Hp : pending_extension
                 (snd (processEmergencyExtension db at_ user eid body)) eid
               = None).
  { unfold pending_extension. rewrite Hext.
    rewrite find_none_all; [reflexivity|].
    intros x Hin. apply in_map_iff in Hin. destruct Hin as (e & <- & _).
    match goal with
    | |- context [set_extension ?a ?b ?c ?d ?e0 e] =>
        destruct (set_extension_fields a b c d e0 e) as (-> & _ & _ & ->)
    end.
    destruct (emergency_extensions.id e =? eid); [|reflexivity].
    destruct (is_approve (action body)); reflexivity. }
  unfold processEmergencyExtension at 1. rewrite Hp. reflexivity.
Qed.


(* ----------------------------------------------------------------- *)
(** ** From the issue of a QR code to its validation *)

Lemma validate_window (env : Env) (db : DB) (now_ : Z) (qr : string)
    (q : QRData) (la : leave_applications.row) :
  JSON_parse P qr = Some q ->
  hash q = generateHash P env (leaveId q) (studentId q) (fromDate q) ->
  leave_of db (leaveId q) (studentId q) = Some la ->
  is_approved (leave_applications.status la) = true ->
  valid (validateQRCode P env db now_ qr) = true
  <-> match leave_applications.qr_code_expires_at la with
      | Some t => t
      | None => 0
      end <= now_ <= end_of_leave la.
Proof.
  intros Hq Hh Hl Ha. unfold validateQRCode.
  rewrite Hq, Hh, String.eqb_refl, Hl, Ha. cbn [negb].
  destruct (now_ <? _) eqn:E1.
  - apply Z.ltb_lt in E1. cbn. split; [discriminate|lia].
  - apply Z.ltb_ge in E1. rewrite Z.gtb_ltb.
    destruct (end_of_leave la <? now_) eqn:E2.
    + apply Z.ltb_lt in E2. cbn. split; [discriminate|lia].
    + apply Z.ltb_ge in E2. cbn. split; [lia|reflexivity].
Qed.

Lemma leave_of_map (db : DB)
    (f : leave_applications.row -> leave_applications.row) (lid sid : Z) :
  (forall la, leave_applications.id (f la) = leave_applications.id la
              /\ leave_applications.student_id (f la)
                 = leave_applications.student_id la) ->
  leave_of (set_leave_applications db (map f (t_leave_applications db)))
           lid sid
  = option_map f (leave_of db lid sid).
Proof.
  intros Hf. unfold leave_of, student_by_id.
  cbn [t_leave_applications t_students set_leave_applications].
  rewrite find_map_same.
  - destruct (find _ (t_leave_applications db)); [|reflexivity].
    cbn [option_map]. destruct (find _ (t_students db)); reflexivity.
  - intros la. destruct (Hf la) as (-> & ->). reflexivity.
Qed.

(** X19. The code that [getLeaveQRCode] issues is the code that
    [validateQRCode] accepts. At the first issue for an approved leave of
    the student's own, the answer is 200 with the image of the token of
    [generateQRCodeData] and a validFrom of QR_CODE_VALIDITY_HOURS
    (default 2) hours before the leave's first midnight; and on the
    database so left, that token is valid at exactly the times from
    validFrom to 23:59:59 of the leave's last day. [JSON.parse] is assumed
    to read the token back. *)
Theorem issued_code_is_accepted (env : Env) (db : DB) (user lid : Z)
    (s : students.row) (la : leave_applications.row) :
  student_of_user db user = Some s ->
  own_leave db lid (students.id s) = Some la ->
  is_approved (leave_applications.status la) = true ->
  leave_applications.qr_code_generated la = false ->
  JSON_parse P (generateQRCodeData P env la s) = Some (qrObject P env la s) ->
  let qr := generateQRCodeData P env la s in
  let opens := midnight (leave_applications.from_date la)
               - or_default (QR_CODE_VALIDITY_HOURS env) 2 * 60 * 60 * 1000 in
  fst (getLeaveQRCode P env db user lid)
  = mkResponse 200 true ""
      (Some (mkQRResponse (toDataURL P (or_default (QR_CODE_SIZE env) 300) qr)
               (Some opens) (leave_applications.from_date la)
               (leave_applications.to_date la)
               (leave_applications.status la)))
  /\ forall now_,
       valid (validateQRCode P env (snd (getLeaveQRCode P env db user lid))
                             now_ qr) = true
       <-> opens <= now_ <= end_of_leave la.
Proof.
  intros Hs Ho Ha Hg Hparse qr opens.
  assert (E : getLeaveQRCode P env db user lid
              = (mkResponse 200 true ""
                   (Some (mkQRResponse
                            (toDataURL P (or_default (QR_CODE_SIZE env) 300)
                                       qr)
                            (Some opens) (leave_applications.from_date la)
                            (leave_applications.to_date la)
                            (leave_applications.status la))),
                 set_leave_applications db
                   (map (set_qr lid qr opens) (t_leave_applications db)))).
  { unfold getLeaveQRCode. rewrite Hs, Ho, Ha, Hg. reflexivity. }
  rewrite E. cbn [fst snd]. split; [reflexivity|]. intros now_.
  assert (Hid : leave_applications.id la = lid
                /\ leave_applications.student_id la = students.id s).
  { unfold own_leave in Ho. apply find_some in Ho. destruct Ho as [_ Hp].
    apply andb_prop in Hp. destruct Hp as [H1 H2].
    apply Z.eqb_eq in H1, H2. now split. }
  destruct Hid as [Hid Hsid].
  assert (Hst : exists s', student_by_id db (students.id s) = Some s').
  { unfold student_of_user in Hs. apply find_some in Hs.
    destruct Hs as [Hin _].
    apply (find_exists _ _ s Hin). apply Z.eqb_refl. }
  destruct Hst as [s' Hs'].
  assert (Hl : leave_of (set_leave_applications db
                           (map (set_qr lid qr opens)
                                (t_leave_applications db)))
                        (leaveId (qrObject P env la s))
                        (studentId (qrObject P env la s))
               = Some (set_qr lid qr opens la)).
  { rewrite leave_of_map
      by (intros x; destruct (set_qr_fields lid qr opens x)
            as (-> & -> & _); split; reflexivity).
    cbn [leaveId studentId qrObject]. unfold leave_of. rewrite Hid.
    unfold own_leave in Ho. rewrite Ho, Hs'. reflexivity. }
  rewrite (validate_window env _ now_ qr _ _ Hparse eq_refl Hl).
  - unfold end_of_leave.
    destruct (set_qr_fields lid qr opens la) as (_ & _ & _ & -> & _).
    unfold set_qr. apply Z.eqb_eq in Hid. rewrite Hid.
    cbn [leave_applications.qr_code_expires_at]. reflexivity.
  - destruct (set_qr_fields lid qr opens la) as (_ & _ & _ & _ & ->).
    exact Ha.
Qed.


(* ----------------------------------------------------------------- *)
(** ** The two queues of pending leaves *)

Lemma LeaveStatus_eqb_eq (a b : LeaveStatus) :
  LeaveStatus_eqb a b = true <-> a = b.
Proof. destruct a, b; cbn; split; congruence. Qed.

Lemma In_pending_queue (env : Env) (db : DB) (la : leave_applications.row) :
  In la (map pr_leave
             (match data (getPendingLeaves env db) with
              | Some l => l
              | None => []
              end))
  <-> In la (t_leave_applications db)
      /\ student_by_id db (leave_applications.student_id la) <> None
      /\ leave_applications.status la = PENDING
      /\ sql_duration la <= or_default (MAX_REGULAR_LEAVE_DAYS env) 15.
Proof.
  unfold getPendingLeaves. cbn [data]. rewrite in_map_iff. split.
  - intros (row & <- & Hin). apply In_select_rows in Hin.
    destruct Hin as (x & Hx & Hf).
    destruct (student_by_id db (leave_applications.student_id x)) eqn:Es;
      [|discriminate].
    destruct (LeaveStatus_eqb _ _ && _) eqn:Ec; [|discriminate].
    injection Hf as <-. cbn [pr_leave]. rewrite Es.
    apply andb_prop in Ec. destruct Ec as [E1 E2].
    apply LeaveStatus_eqb_eq in E1. apply Z.leb_le in E2.
    repeat split; try assumption. discriminate.
  - intros (Hin & Hs & Hst & Hd).
    destruct (student_by_id db (leave_applications.student_id la)) as [s|]
      eqn:Es; [|congruence].
    exists (mkPendingRow la s (sql_duration la)). split; [reflexivity|].
    apply In_select_rows. exists la. split; [exact Hin|].
    rewrite Es, Hst. apply Z.leb_le in Hd. rewrite Hd. reflexivity.
Qed.

Lemma In_principal_queue (env : Env) (db : DB)
    (la : leave_applications.row) :
  In la (map pl_leave
             (match data (getLeavesForPrincipal env db) with
              | Some l => l
              | None => []
              end))
  <-> In la (t_leave_applications db)
      /\ student_by_id db (leave_applications.student_id la) <> None
      /\ leave_applications.status la = PENDING
      /\ or_default (MAX_REGULAR_LEAVE_DAYS env) 15 < sql_duration la.
Proof.
  unfold getLeavesForPrincipal. cbn [data]. rewrite in_map_iff. split.
  - intros (row & <- & Hin). apply In_select_rows in Hin.
    destruct Hin as (x & Hx & Hf).
    destruct (student_by_id db (leave_applications.student_id x)) eqn:Es;
      [|discriminate].
    destruct (LeaveStatus_eqb _ _ && _) eqn:Ec; [|discriminate].
    injection Hf as <-. cbn [pl_leave]. rewrite Es.
    apply andb_prop in Ec. destruct Ec as [E1 E2].
    apply LeaveStatus_eqb_eq in E1. rewrite Z.gtb_ltb in E2.
    apply Z.ltb_lt in E2.
    repeat split; try assumption. discriminate.
  - intros (Hin & Hs & Hst & Hd).
    destruct (student_by_id db (leave_applications.student_id la)) as [s|]
      eqn:Es; [|congruence].
    eexists (mkPrincipalRow la s _ (sql_duration la)).
    split; [reflexivity|].
    apply In_select_rows. exists la. split; [exact Hin|].
    rewrite Es, Hst. apply Z.ltb_lt in Hd. rewrite Z.gtb_ltb, Hd.
    reflexivity.
Qed.

(** X21. The deputy warden's queue ([getPendingLeaves]) and the
    principal's queue ([getLeavesForPrincipal]) split the pending leaves:
    a leave of a known student is PENDING exactly when it is listed in one
    of the two queues, never in both; the deputy warden's queue holds the
    leaves of at most MAX_REGULAR_LEAVE_DAYS (default 15) days, the
    principal's the longer ones. A decided leave is in neither. *)
Theorem pending_queues_split (env : Env) (db : DB)
    (la : leave_applications.row) :
  let dw_queue := map pr_leave (match data (getPendingLeaves env db) with
                                | Some l => l
                                | None => []
                                end) in
  let principal_queue :=
    map pl_leave (match data (getLeavesForPrincipal env db) with
                  | Some l => l
                  | None => []
                  end) in
  http (getPendingLeaves env db) = 200
  /\ http (getLeavesForPrincipal env db) = 200
  /\ ((In la (t_leave_applications db)
       /\ student_by_id db (leave_applications.student_id la) <> None
       /\ leave_applications.status la = PENDING)
      <-> (In la dw_queue \/ In la principal_queue))
  /\ ~ (In la dw_queue /\ In la principal_queue)
  /\ (In la dw_queue ->
      sql_duration la <= or_default (MAX_REGULAR_LEAVE_DAYS env) 15)
  /\ (In la principal_queue ->
      or_default (MAX_REGULAR_LEAVE_DAYS env) 15 < sql_duration la).
Proof.
  cbv zeta. split; [reflexivity|]. split; [reflexivity|].
  rewrite (In_pending_queue env db la), (In_principal_queue env db la).
  repeat split.
  - destruct (Z_le_gt_dec (sql_duration la)
                          (or_default (MAX_REGULAR_LEAVE_DAYS env) 15));
      [left|right]; intuition lia.
  - intuition.
  - intuition.
  - intuition.
  - intuition lia.
  - intuition.
  - intuition.
Qed.


End MoreProperties.

(* ----------------------------------------------------------------- *)
(** ** Phone numbers *)

Lemma remove_non_digits_all_digits (s : string) :
  all_digits (remove_non_digits s) = true.
Proof.
  induction s as [|c r IH]; cbn [remove_non_digits]; [reflexivity|].
  destruct (is_digit c) eqn:E; [|exact IH].
  cbn [all_digits]. now rewrite E, IH.
Qed.

Lemma remove_non_digits_id (s : string) :
  all_digits s = true -> remove_non_digits s = s.
Proof.
  induction s as [|c r IH]; cbn [all_digits remove_non_digits];
    [reflexivity|].
  intros H. apply andb_prop in H. destruct H as [Hc Hr].
  now rewrite Hc, (IH Hr).
Qed.

Lemma prefix_plus_digits (c : string) :
  all_digits c = true -> String.prefix "+" c = false.
Proof.
  destruct c as [|a r]; [reflexivity|]. cbn [all_digits].
  intros H. apply andb_prop in H. destruct H as [Ha _].
  cbn [String.prefix].
  destruct (ascii_dec "+" a) as [<-|_]; [discriminate|reflexivity].
Qed.

Lemma prefix_91 (d : string) :
  String.prefix "91" (String "9" (String "1" d)) = true.
Proof.
  cbn [String.prefix].
  destruct (ascii_dec "9" "9"); [|congruence].
  destruct (ascii_dec "1" "1"); [|congruence].
  destruct d; reflexivity.
Qed.

Lemma sanitize_plus (phone : string) :
  sanitizePhoneNumber phone
  = "+" ++ (if negb (String.prefix "91" (remove_non_digits phone))
               && (String.length (remove_non_digits phone) =? 10)%nat
            then "91" ++ remove_non_digits phone
            else remove_non_digits phone).
Proof.
  unfold sanitizePhoneNumber.
  rewrite prefix_plus_digits; [reflexivity|].
  destruct (negb _ && _); [|apply remove_non_digits_all_digits].
  change (all_digits (String "9" (String "1" (remove_non_digits phone)))
          = true).
  cbn [all_digits]. rewrite remove_non_digits_all_digits. reflexivity.
Qed.

(** X23. What [sanitizePhoneNumber] returns. The result is always "+"
    followed by decimal digits only: the digits of the input, with "91"
    put in front when there are exactly ten of them and they do not begin
    with 91. A ten-digit number that begins with 91, and a number of any
    other length, get no country code. The function is idempotent, so a
    stored number can be sanitized again without change. *)
Theorem sanitize_phone_shape (phone : string) :
  let d := remove_non_digits phone in
  (exists c, sanitizePhoneNumber phone = "+" ++ c /\ all_digits c = true)
  /\ (String.length d = 10%nat -> String.prefix "91" d = false ->
      sanitizePhoneNumber phone = "+91" ++ d)
  /\ (String.length d <> 10%nat \/ String.prefix "91" d = true ->
      sanitizePhoneNumber phone = "+" ++ d)
  /\ sanitizePhoneNumber (sanitizePhoneNumber phone)
     = sanitizePhoneNumber phone.
Proof.
  cbv zeta. set (d := remove_non_digits phone).
  assert (Hd : all_digits d = true) by apply remove_non_digits_all_digits.
  assert (H91 : all_digits ("91" ++ d) = true).
  { change (all_digits (String "9" (String "1" d)) = true).
    cbn [all_digits]. now rewrite Hd. }
  split; [|split; [|split]].
  - rewrite sanitize_plus. fold d. eexists. split; [reflexivity|].
    destruct (negb _ && _); assumption.
  - intros Hlen Hpre. rewrite sanitize_plus. fold d.
    rewrite Hpre, Hlen. reflexivity.
  - intros H. rewrite sanitize_plus. fold d.
    destruct H as [Hlen|Hpre].
    + apply Nat.eqb_neq in Hlen. rewrite Hlen, andb_false_r. reflexivity.
    + rewrite Hpre. reflexivity.
  - rewrite (sanitize_plus phone). fold d.
    set (c := if negb (String.prefix "91" d) && (String.length d =? 10)%nat
              then "91" ++ d else d).
    assert (Hc : all_digits c = true) by (unfold c; destruct (negb _ && _);
                                          assumption).
    rewrite sanitize_plus.
    change (remove_non_digits ("+" ++ c)) with (remove_non_digits c).
    rewrite (remove_non_digits_id c Hc).
    assert (E : negb (String.prefix "91" c) && (String.length c =? 10)%nat
                = false).
    { unfold c. destruct (negb (String.prefix "91" d)
                          && (String.length d =? 10)%nat) eqn:Ec.
      - change ("91" ++ d) with (String "9" (String "1" d)).
        rewrite prefix_91. reflexivity.
      - exact Ec. }
    rewrite E. reflexivity.
Qed.

(* ----------------------------------------------------------------- *)
(** ** One-time codes *)

Lemma filter_none {A : Type} (p : A -> bool) (l : list A) :
  (forall x, In x l -> p x = false) -> filter p l = [].
Proof.
  induction l as [|a l IH]; intros H; cbn; [reflexivity|].
  rewrite (H a (or_introl eq_refl)). apply IH. intros x Hx. apply H. now right.
Qed.

Lemma otp_used_up (now_ : Z) (phone otp purpose_ : string)
    (r : otp_verifications.row) :
  (otp_verifications.phone_number r = phone ->
   otp_verifications.otp_code r = otp ->
   otp_verifications.purpose r = purpose_ ->
   otp_verifications.is_verified r = true) ->
  otp_matches now_ phone otp purpose_ r = false.
Proof.
  intros H. unfold otp_matches.
  destruct (String.eqb_spec (otp_verifications.phone_number r) phone);
    [|reflexivity].
  destruct (String.eqb_spec (otp_verifications.otp_code r) otp);
    [|reflexivity].
  destruct (String.eqb_spec (otp_verifications.purpose r) purpose_);
    [|reflexivity].
  rewrite H by assumption. reflexivity.
Qed.

(** X24. A stored one-time code verifies once, for the right user, and
    only before it expires. When [storeOTP] has stored a code for a phone
    number and purpose for which no earlier unused row holds the same
    code, [verifyOTP] with that phone, code and purpose succeeds and
    returns the user the code was stored for, provided NOW() is before
    the stored expiry, OTP_EXPIRY_MINUTES (default 10) minutes after the
    call; from then on every further verification of the same code fails
    and changes nothing. At or after the expiry the verification fails
    and the code stays unused. *)
Theorem stored_otp_verifies_once (otp_length otp_expiry_minutes : option Z)
    (to_timestamp : Z -> Z)
    (tbl tbl1 : list otp_verifications.row) (js_now stamp draw userId : Z)
    (phone purpose_ otp : string) :
  (forall r, In r tbl ->
     otp_verifications.phone_number r = phone ->
     otp_verifications.otp_code r = generateOTP otp_length draw ->
     otp_verifications.purpose r = purpose_ ->
     otp_verifications.is_verified r = true) ->
  storeOTP otp_length otp_expiry_minutes to_timestamp tbl js_now stamp
           draw userId phone purpose_ = Some (otp, tbl1) ->
  let expires :=
    to_timestamp (js_now + or_default otp_expiry_minutes 10 * 60 * 1000) in
  forall now_,
    (now_ < expires ->
     fst (verifyOTP tbl1 now_ phone otp purpose_) = OTPVerified userId
     /\ forall now',
          verifyOTP (snd (verifyOTP tbl1 now_ phone otp purpose_))
                    now' phone otp purpose_
          = (OTPInvalid "Invalid or expired OTP",
             snd (verifyOTP tbl1 now_ phone otp purpose_)))
    /\ (expires <= now_ ->
        verifyOTP tbl1 now_ phone otp purpose_
        = (OTPInvalid "Invalid or expired OTP", tbl1)).
Proof.
  intros Hold Hstore expires now_.
  set (new := otp_verifications.mk (next_id otp_verifications.id tbl) userId
                phone otp purpose_ false expires stamp).
  assert (Etbl : tbl1 = (tbl ++ [new])%list
                 /\ otp = generateOTP otp_length draw).
  { unfold storeOTP in Hstore.
    destruct (_ && _ && _)%nat; [|discriminate].
    injection Hstore as <- <-. split; reflexivity. }
  destruct Etbl as [Etbl Eotp]. rewrite <- Eotp in Hold.
  assert (Hdead : forall t, filter (otp_matches t phone otp purpose_) tbl = []).
  { intros t. apply filter_none. intros r Hr. apply otp_used_up.
    now apply Hold. }
  assert (Hnew : forall t, otp_matches t phone otp purpose_ new
                           = (expires >? t)).
  { intros t. unfold otp_matches, new.
    cbn [otp_verifications.phone_number otp_verifications.otp_code
         otp_verifications.purpose otp_verifications.is_verified
         otp_verifications.expires_at].
    now rewrite !String.eqb_refl. }
  split.
  - intros Hlt.
    assert (Ev : verifyOTP tbl1 now_ phone otp purpose_
                 = (OTPVerified userId,
                    map (mark_verified (otp_verifications.id new)) tbl1)).
    { unfold verifyOTP. rewrite Etbl, filter_app, Hdead.
      cbn [filter app]. rewrite Hnew.
      assert (E : (expires >? now_) = true)
        by (rewrite Z.gtb_ltb; now apply Z.ltb_lt).
      rewrite E. reflexivity. }
    rewrite Ev. cbn [fst snd]. split; [reflexivity|].
    intros now'. unfold verifyOTP. rewrite filter_none; [reflexivity|].
    intros x Hx. apply in_map_iff in Hx. destruct Hx as (r & <- & Hr).
    apply otp_used_up. unfold mark_verified.
    destruct (otp_verifications.id r =? otp_verifications.id new) eqn:Eid;
      [reflexivity|].
    rewrite Etbl in Hr. apply in_app_or in Hr.
    destruct Hr as [Hr|[<-|[]]]; [now apply Hold|].
    rewrite Z.eqb_refl in Eid. discriminate.
  - intros Hge. unfold verifyOTP.
    rewrite Etbl, filter_app, Hdead. cbn [filter app]. rewrite Hnew.
    assert (E : (expires >? now_) = false)
      by (rewrite Z.gtb_ltb; now apply Z.ltb_ge).
    rewrite E. reflexivity.
Qed.

(* ================================================================= *)
(** * The further properties on the sample data *)


Lemma db0_ids_distinct :
  NoDup (map leave_applications.id (t_leave_applications db0)).
Proof.
  rewrite (proj1 db0_tables). cbn.
  repeat (constructor; [cbn; intros H; intuition discriminate|]).
  constructor.
Qed.









(** Witness of X10: the gate log after Asha's exit. *)
Lemma gate_log_rows_shape_witness :
  Forall log_row_shape (t_gate_logs db_exited).
Proof.
  apply Forall_forall.
  exact (gate_log_rows_shape platform db_exited db_exited_reachable).
Defined.

(** Witness of X11: the deputy warden has approved leave C; the principal
    can no longer decide it. *)
Lemma decision_is_final_witness :
  http (fst (processLeaveByPrincipal
               (snd (processLeaveByDW env0 db0 5 1 3 approve))
               6 2 3 approve)) = 404.
Proof.
  assert (H : http (fst (processLeaveByDW env0 db0 5 1 3 approve)) = 200
              /\ snd (processLeaveByDW env0 db0 5 1 3 approve)
                 = snd (processLeaveByDW env0 db0 5 1 3 approve))
    by (split; [vm_compute; reflexivity|reflexivity]).
  destruct (decision_is_final env0 db0
              (snd (processLeaveByDW env0 db0 5 1 3 approve)) 5 1 3 approve
              (or_introl H) env0 6 2 approve) as (_ & _ & Hn).
  destruct (Hn eq_refl) as [_ E]. rewrite E. reflexivity.
Defined.

(** Witness of X12: the approval of leave C. *)
Lemma leave_status_moves_witness :
  exists f rest,
    t_leave_applications
      (handle platform db0 (ReqProcessByDW env0 5 1 3 approve))
    = (map f (t_leave_applications db0) ++ rest)%list.
Proof.
  destruct (leave_status_moves platform db0
              (ReqProcessByDW env0 5 1 3 approve) db0_ids_distinct)
    as (f & rest & E & _).
  exists f, rest. exact E.
Defined.



(** Witness of X15: the deputy warden's decision on the twenty-day leave D
    is refused. *)
Lemma refused_request_writes_nothing_witness :
  handle platform db0 (ReqProcessByDW env0 5 1 4 approve) = db0.
Proof.
  assert (H : http (fst (processLeaveByDW env0 db0 5 1 4 approve)) <> 200)
    by (vm_compute; discriminate).
  exact (refused_request_writes_nothing platform db0
           (ReqProcessByDW env0 5 1 4 approve) H).
Defined.


(** Witness of X17: the extension of leave A, once approved, cannot be
    decided again. *)
Lemma extension_decision_is_final_witness :
  http (fst (processEmergencyExtension
               (snd (processEmergencyExtension db0 5 1 1 approve))
               6 2 1 approve)) = 404.
Proof.
  assert (H : http (fst (processEmergencyExtension db0 5 1 1 approve)) = 200)
    by (vm_compute; reflexivity).
  rewrite (extension_decision_is_final db0 5 1 1 approve H 6 2 approve).
  reflexivity.
Defined.


(** Witness of X19: the QR code of leave A, issued and shown at 23:00 of
    day 20000. *)
Lemma issued_code_is_accepted_witness :
  valid (validateQRCode platform env0
           (snd (getLeaveQRCode platform env0 db0 10 1)) evening
           (generateQRCodeData platform env0 leaveA asha)) = true.
Proof.
  assert (Ho : own_leave db0 1 (students.id asha) = Some leaveA)
    by (vm_compute; reflexivity).
  assert (Hp : JSON_parse platform (generateQRCodeData platform env0 leaveA
                                                       asha)
               = Some (qrObject platform env0 leaveA asha))
    by (vm_compute; reflexivity).
  destruct (issued_code_is_accepted platform env0 db0 10 1 asha leaveA
              eq_refl Ho eq_refl eq_refl Hp) as [_ Hv].
  apply Hv. vm_compute. split; discriminate.
Defined.



(** Witness of X24: the code stored at time 1000 is verified at time
    2000. *)
Lemma stored_otp_verifies_once_witness :
  fst (verifyOTP Cases.otp_table 2000 "+919876543210" "123456" "LOGIN")
  = OTPVerified 20.
Proof.
  assert (Hold : forall r, In r [] ->
            otp_verifications.phone_number r = "+919876543210" ->
            otp_verifications.otp_code r = generateOTP None 123456 ->
            otp_verifications.purpose r = "LOGIN" ->
            otp_verifications.is_verified r = true)
    by (intros r []).
  assert (Hst : storeOTP None None (fun t => t) [] 1000 1000 123456 20
                         "+919876543210" "LOGIN"
                = Some ("123456", Cases.otp_table))
    by (vm_compute; reflexivity).
  assert (Hlt : 2000 < 1000 + or_default None 10 * 60 * 1000)
    by (vm_compute; reflexivity).
  exact (proj1 (proj1 (stored_otp_verifies_once None None (fun t => t) []
                         Cases.otp_table 1000 1000 123456 20
                         "+919876543210" "LOGIN" "123456" Hold Hst 2000)
                      Hlt)).
Defined.
